(** * NumVision: hand-number detection client and capture loop

    A shallow embedding of [services/geminiService.ts] (the classification
    client) and of the stateful core of [components/HandDetector.tsx]
    (frame sampler, state updates, overlay geometry, loop guard).

    JavaScript numbers are IEEE-754 binary64 values, modelled by Rocq's
    primitive floats; values produced by [JSON.parse] are modelled by an
    inductive type whose objects are finite maps from property names. *)

From Stdlib Require Import ZArith Floats Uint63 Lia Ascii.
From stdpp Require Import base option list strings gmap.

#[local] Set Warnings "-register-all,-inexact-float".
#[local] Open Scope Z_scope.

(* ===================================================================== *)
(** ** JavaScript values and completions *)
(* ===================================================================== *)

Module JS.

(** What [JSON.parse] can build. *)
Inductive json : Type :=
| JNull
| JBool (b : bool)
| JNum (x : float)
| JStr (s : string)
| JArr (items : list json)
| JObj (props : gmap string json).

(** A JavaScript value read back from such data: [None] is [undefined]. *)
Definition value : Type := option json.

Definition undefined : value := None.
Definition null : value := Some JNull.
Definition bool_val (b : bool) : value := Some (JBool b).
Definition num_val (x : float) : value := Some (JNum x).
Definition str_val (s : string) : value := Some (JStr s).

(** Errors that can be thrown by the code under study. *)
Inductive error : Type :=
| RemoteFailure             (* the awaited remote call rejected *)
| Error (message : string)  (* [new Error(message)] *)
| SyntaxError               (* [JSON.parse] on malformed text *)
| TypeError                 (* property read on [null], failed coercion *)
| DOMException.             (* canvas operations *)

(** Outcome of evaluating a statement list: normal value or a throw. *)
Inductive completion (A : Type) : Type :=
| Normal (a : A)
| Throw (e : error).
Arguments Normal {A} a.
Arguments Throw {A} e.

#[export] Instance completion_ret : MRet completion := @Normal.
#[export] Instance completion_bind : MBind completion :=
  fun A B f c => match c with Normal a => f a | Throw e => Throw e end.

(** [try { body } catch (e) { handler e }] *)
Definition try_catch {A} (body : completion A) (handler : error -> completion A)
  : completion A :=
  match body with
  | Normal a => Normal a
  | Throw e => handler e
  end.

(** Number of an unsigned integer attribute (exact below 2^53). *)
Definition num (n : Z) : float := PrimFloat.of_uint63 (Uint63.of_Z n).

(** ToBoolean. *)
Definition truthy (v : value) : bool :=
  match v with
  | None => false
  | Some JNull => false
  | Some (JBool b) => b
  | Some (JNum x) => negb (PrimFloat.eqb x 0 || PrimFloat.is_nan x)
  | Some (JStr s) => negb (String.eqb s "")
  | Some (JArr _) => true
  | Some (JObj _) => true
  end.

(** [v.k] for a property name [k] that no built-in prototype defines
    (all names read by the client are of that kind): reading from
    [null] or [undefined] throws, an object yields its own property,
    and a primitive or array yields [undefined]. *)
Definition get (v : value) (k : string) : completion value :=
  match v with
  | None | Some JNull => Throw TypeError
  | Some (JObj props) => Normal (props !! k)
  | Some _ => Normal undefined
  end.

(** [0 <= x && x <= 1] *)
Definition in_unit_interval (x : float) : bool :=
  PrimFloat.leb 0 x && PrimFloat.leb x 1.

Section Coercion.
(** The two coercions whose result depends on text: StringToNumber,
    and ToPrimitive on arrays and objects (which may throw when the
    data shadows [valueOf] and [toString]). *)
Variable StringToNumber : string -> float.
Variable ObjectToNumber : json -> completion float.

(** ToNumber. *)
Definition to_number (v : value) : completion float :=
  match v with
  | None => Normal PrimFloat.nan
  | Some JNull => Normal 0%float
  | Some (JBool b) => Normal (if b then 1%float else 0%float)
  | Some (JNum x) => Normal x
  | Some (JStr s) => Normal (StringToNumber s)
  | Some (JArr _ as o) | Some (JObj _ as o) => ObjectToNumber o
  end.

(** [v / d] *)
Definition divide (v : value) (d : float) : completion float :=
  x ← to_number v; mret (x / d)%float.
End Coercion.

End JS.

(* ===================================================================== *)
(** ** types.ts *)
(* ===================================================================== *)

Module Types.
Import JS.

Record BoundingBox : Type := mkBox {
  ymin : float;
  xmin : float;
  ymax : float;
  xmax : float;
}.

(** The fields copied from a response typed [any] hold whatever the
    response held, so they are values rather than their declared types. *)
Record DetectionResult : Type := mkResult {
  detected : value;
  number : value;
  boundingBox : option BoundingBox;
  confidence : value;
  explanation : value;
}.

Record HistoryEntry : Type := mkEntry {
  timestamp : Z;
  result : DetectionResult;
}.

Record AppState : Type := mkState {
  isProcessing : bool;
  currentResult : option DetectionResult;
  history : list HistoryEntry;
}.

Record Settings : Type := mkSettings {
  showBoundingBox : bool;
  showConfidence : bool;
  showHistory : bool;
  autoProcess : bool;
}.
End Types.

(* ===================================================================== *)
(** ** services/geminiService.ts *)
(* ===================================================================== *)

Module GeminiService.
Import JS Types.

(** The object returned by the [catch] block. *)
Definition errorResult : DetectionResult :=
  {| detected := bool_val false;
     number := null;
     boundingBox := None;
     confidence := num_val 0;
     explanation := str_val "Error processing image" |}.

(** [result.k] on a parsed response that is not [null]. *)
Definition field (parsed : json) (k : string) : value :=
  match parsed with
  | JObj props => props !! k
  | _ => None
  end.

Section Client.
Variable StringToNumber : string -> float.
Variable ObjectToNumber : json -> completion float.
(** [JSON.parse]: [None] when it throws. *)
Variable JSON_parse : string -> option json.
(** [await ai.models.generateContent(...)] for a given image: it
    rejects, or yields a response whose [text] may be [undefined]. *)
Variable generateContent : option string -> completion (option string).

Definition normalize (bb : value) : completion BoundingBox :=
  y0 ← get bb "ymin"; ymin ← divide StringToNumber ObjectToNumber y0 1000;
  x0 ← get bb "xmin"; xmin ← divide StringToNumber ObjectToNumber x0 1000;
  y1 ← get bb "ymax"; ymax ← divide StringToNumber ObjectToNumber y1 1000;
  x1 ← get bb "xmax"; xmax ← divide StringToNumber ObjectToNumber x1 1000;
  mret (mkBox ymin xmin ymax xmax).

(** Lines 77-85. *)
Definition normalizedBox (bb : value) : completion (option BoundingBox) :=
  if truthy bb
  then box ← normalize bb; mret (Some box)
  else mret None.

(** The body of the [try] block. *)
Definition detect_body (base64Image : option string)
  : completion DetectionResult :=
  text ← generateContent base64Image;
  match text with
  | None => Throw (Error "No response text from Gemini")
  | Some text =>
      if String.eqb text "" then Throw (Error "No response text from Gemini")
      else
        match JSON_parse text with
        | None => Throw SyntaxError
        | Some parsed =>
            let result : value := Some parsed in
            bb ← get result "boundingBox";
            normalizedBox ← normalizedBox bb;
            d ← get result "detected";
            n ← get result "number";
            c ← get result "confidence";
            e ← get result "explanation";
            mret {| detected := d;
                    number := n;
                    boundingBox := normalizedBox;
                    confidence := c;
                    explanation := e |}
        end
  end.

Definition detectHandNumber (base64Image : option string)
  : completion DetectionResult :=
  try_catch (detect_body base64Image) (fun _ => Normal errorResult).

End Client.
End GeminiService.

(* ===================================================================== *)
(** ** The DOM attributes the component writes *)
(* ===================================================================== *)

Module DOM.
Import JS.

(** IntegerPart of a finite number, zero for NaN and the infinities. *)
Definition integer_part (x : float) : Z :=
  match Prim2SF x with
  | S754_finite s m e =>
      let a := if 0 <=? e then Z.pos m * 2 ^ e else Z.pos m / 2 ^ (- e) in
      if s then - a else a
  | _ => 0
  end.

(** Web IDL conversion of a number to [unsigned long]. *)
Definition to_unsigned_long (x : float) : Z := integer_part x mod 2 ^ 32.

(** Setter of a reflected [unsigned long] attribute with a default:
    values above 2^31 - 1 fall back to the default. *)
Definition reflect (default : Z) (x : float) : Z :=
  let n := to_unsigned_long x in
  if n <=? 2147483647 then n else default.

Record Canvas : Type := mkCanvas { width : Z; height : Z }.

(** [document.createElement('canvas')] *)
Definition createCanvas : Canvas := mkCanvas 300 150.
Definition set_width (c : Canvas) (x : float) : Canvas :=
  mkCanvas (reflect 300 x) (height c).
Definition set_height (c : Canvas) (x : float) : Canvas :=
  mkCanvas (width c) (reflect 150 x).

Record VideoElement : Type := mkVideo { videoWidth : Z; videoHeight : Z }.

(** [s.split(',')[1]] *)
Fixpoint after_comma (s : string) : option string :=
  match s with
  | EmptyString => None
  | String c rest => if Ascii.eqb c ","%char then Some rest else after_comma rest
  end.
Fixpoint until_comma (s : string) : string :=
  match s with
  | EmptyString => EmptyString
  | String c rest => if Ascii.eqb c ","%char then EmptyString else String c (until_comma rest)
  end.
Definition split_comma_1 (s : string) : option string :=
  until_comma <$> after_comma s.

(** What the page offers to one call of the sampler. *)
Record Page : Type := mkPage {
  videoRef : option VideoElement;                       (* videoRef.current *)
  getContext : bool;                                    (* a 2d context exists *)
  drawImage : VideoElement -> Canvas -> completion ();  (* ctx.drawImage *)
  toDataURL : Canvas -> completion string;              (* JPEG, quality 0.6 *)
}.
End DOM.

(* ===================================================================== *)
(** ** components/HandDetector.tsx *)
(* ===================================================================== *)

Module HandDetector.
Import JS Types DOM.

Definition initialSettings : Settings := mkSettings true true true false.
Definition initialState : AppState := mkState false None [].

(** React applies queued updater functions in order. *)
Definition updater : Type := AppState -> AppState.
Definition setState (updates : list updater) (s : AppState) : AppState :=
  foldl (fun acc u => u acc) s updates.

(** *** Frame sampler *)

Definition targetWidth : float := 320%float.
Definition scale (video : VideoElement) : float :=
  (targetWidth / num (videoWidth video))%float.
Definition targetHeight (video : VideoElement) : float :=
  (num (videoHeight video) * scale video)%float.

Definition tempCanvas (video : VideoElement) : Canvas :=
  set_height (set_width createCanvas targetWidth) (targetHeight video).

(** Lines 67-85: the part of the [try] block before the remote call. *)
Definition capture (page : Page) (video : VideoElement)
  : completion (Canvas * option string) :=
  let canvas := tempCanvas video in
  if negb (getContext page) then Throw (Error "Could not get context")
  else
    _ ← drawImage page video canvas;
    url ← toDataURL page canvas;
    mret (canvas, split_comma_1 url).

(** *** State updates *)

Definition markProcessing : updater :=
  fun prev => mkState true (currentResult prev) (history prev).
Definition clearProcessing : updater :=
  fun prev => mkState false (currentResult prev) (history prev).

(** Lines 90-101, with [now] the value of [Date.now()]. *)
Definition recordResult (r : DetectionResult) (now : Z) : updater :=
  fun prev =>
    let newHistory :=
      if truthy (detected r)
      then take 10 (mkEntry now r :: history prev)
      else history prev in
    mkState false (Some r) newHistory.

(** *** processFrame *)

(** Where a call stands when it first gives control back. *)
Inductive Suspended : Type :=
| Returned                                   (* line 59 or line 62 *)
| Caught (updates : list updater)            (* threw before the await *)
| Awaiting (updates : list updater) (base64Data : option string)
           (image : Canvas).                 (* request issued *)

(** [inFlight] is [state.isProcessing] as the callback sees it. *)
Definition processFrame (inFlight : bool) (page : Page) : Suspended :=
  match videoRef page with
  | None => Returned
  | Some video =>
      if inFlight then Returned
      else if (videoWidth video =? 0) || (videoHeight video =? 0) then Returned
      else
        match capture page video with
        | Normal (canvas, base64Data) => Awaiting [markProcessing] base64Data canvas
        | Throw _ => Caught [markProcessing; clearProcessing]
        end
  end.

(** The rest of the call once the awaited promise settles. *)
Definition resume (awaited : completion DetectionResult) (now : Z) : updater :=
  match awaited with
  | Normal r => recordResult r now
  | Throw _ => clearProcessing
  end.

(** *** Auto-process effect: the guard of line 113, under which the effect,
    when it runs, sets its timeout *)
Definition schedules (settings : Settings) (state : AppState) : bool :=
  autoProcess settings && negb (isProcessing state).

(** *** Overlay effect *)

(** The label above the box (lines 171-181).  Its text is [Number: ]
    followed by the number, and the width of its background is measured
    from that text, so both are determined by [label_number]. *)
Record Label : Type := mkLabel {
  label_number : value;       (* interpolated into the text *)
  label_x : float;            (* left of the background *)
  label_y : float;            (* top of the background *)
  text_x : float;
  text_y : float;
}.

Record Drawing : Type := mkDrawing {
  surfaceWidth : Z;
  surfaceHeight : Z;
  mirroredXMin : float;
  mirroredXMax : float;
  rect_x : float;
  rect_y : float;
  rect_w : float;
  rect_h : float;
  label : option Label;       (* drawn unless the number is [null] *)
}.

Inductive Overlay : Type :=
| Untouched
| Cleared
| Drawn (d : Drawing).

Definition drawOverlay (canvas : option Canvas) (context : bool)
    (video : option VideoElement) (state : AppState) (settings : Settings)
  : Overlay :=
  match canvas, video, currentResult state ≫= boundingBox,
        showBoundingBox settings with
  | Some canvas, Some video, Some box, true =>
      if negb context then Untouched
      else
        let canvas := set_width canvas (num (videoWidth video)) in
        let canvas := set_height canvas (num (videoHeight video)) in
        let mirroredXMin := (1 - xmax box)%float in
        let mirroredXMax := (1 - xmin box)%float in
        let x := (mirroredXMin * num (width canvas))%float in
        let y := (ymin box * num (height canvas))%float in
        let w := ((mirroredXMax - mirroredXMin) * num (width canvas))%float in
        let h := ((ymax box - ymin box) * num (height canvas))%float in
        let number_is_null :=
          match currentResult state ≫= number with
          | Some JNull => true
          | _ => false
          end in
        Drawn {| surfaceWidth := width canvas;
                 surfaceHeight := height canvas;
                 mirroredXMin := mirroredXMin;
                 mirroredXMax := mirroredXMax;
                 rect_x := x; rect_y := y; rect_w := w; rect_h := h;
                 label :=
                   if number_is_null then None
                   else Some {| label_number := currentResult state ≫= number;
                                label_x := x;
                                label_y := (y - 40)%float;
                                text_x := (x + 10)%float;
                                text_y := (y - 16)%float |} |}
  | Some _, _, _, _ => if context then Cleared else Untouched
  | None, _, _, _ => Untouched
  end.

(** *** Sequences of results *)

(** Feeding a sequence of results, each with its [Date.now()]. *)
Definition recordAll (records : list (DetectionResult * Z)) (s : AppState)
  : AppState :=
  foldl (fun acc rn => recordResult rn.1 rn.2 acc) s records.

(** The entries of the results that count as detections, oldest first. *)
Fixpoint accepted (records : list (DetectionResult * Z)) : list HistoryEntry :=
  match records with
  | [] => []
  | (r, now) :: rest =>
      if truthy (detected r)
      then mkEntry now r :: accepted rest
      else accepted rest
  end.

(** The specification's formula for the output height: [H * 320 / W]
    rounded to the nearest integer (halves upwards). *)
Definition rounded_height (W H : Z) : Z := (2 * (H * 320) + W) / (2 * W).

End HandDetector.

(* ===================================================================== *)
(** ** The loop around the two: triggers and settling requests *)
(* ===================================================================== *)

Module Loop.
Import JS Types DOM HandDetector.

Inductive Source : Type := Manual | Scheduled.
Inductive Key : Type := KeyBoundingBox | KeyConfidence | KeyHistory | KeyAutoProcess.

(** [toggleSetting] *)
Definition toggleSetting (key : Key) (prev : Settings) : Settings :=
  match key with
  | KeyBoundingBox =>
      mkSettings (negb (showBoundingBox prev)) (showConfidence prev)
                 (showHistory prev) (autoProcess prev)
  | KeyConfidence =>
      mkSettings (showBoundingBox prev) (negb (showConfidence prev))
                 (showHistory prev) (autoProcess prev)
  | KeyHistory =>
      mkSettings (showBoundingBox prev) (showConfidence prev)
                 (negb (showHistory prev)) (autoProcess prev)
  | KeyAutoProcess =>
      mkSettings (showBoundingBox prev) (showConfidence prev)
                 (showHistory prev) (negb (autoProcess prev))
  end.

(** The component together with the classification requests that were
    issued and have not settled yet (oldest first). *)
Record System : Type := mkSystem {
  app : AppState;
  settings : Settings;
  outstanding : list (option string);
}.

Definition initial : System := mkSystem initialState initialSettings [].

Inductive Event : Type :=
| Trigger (source : Source) (page : Page)
    (* the capture button or the 10 ms timeout calls [processFrame] *)
| Settle (remote : option string -> completion (option string)) (now : Z)
    (* the oldest outstanding request gets its answer from the remote *)
| Toggle (key : Key).

(** The flag is up exactly while one request is outstanding. *)
Definition consistent (s : System) : Prop :=
  (length (outstanding s) <= 1)%nat /\
  (isProcessing (app s) = true <-> outstanding s <> []).

Section Controller.
Variable StringToNumber : string -> float.
Variable ObjectToNumber : json -> completion float.
Variable JSON_parse : string -> option json.

Definition classify (remote : option string -> completion (option string))
    (image : option string) : completion DetectionResult :=
  GeminiService.detectHandNumber StringToNumber ObjectToNumber JSON_parse
    remote image.

(** Each event runs to completion before the next one; the callback
    reads the flag of the state it was rendered with. *)
Definition step (s : System) (e : Event) : System :=
  match e with
  | Trigger _ page =>
      match processFrame (isProcessing (app s)) page with
      | Returned => s
      | Caught updates =>
          mkSystem (setState updates (app s)) (settings s) (outstanding s)
      | Awaiting updates base64Data _ =>
          mkSystem (setState updates (app s)) (settings s)
                   (outstanding s ++ [base64Data])
      end
  | Settle remote now =>
      match outstanding s with
      | [] => s
      | image :: rest =>
          mkSystem (resume (classify remote image) now (app s)) (settings s) rest
      end
  | Toggle key => mkSystem (app s) (toggleSetting key (settings s)) (outstanding s)
  end.

Definition run (s : System) (events : list Event) : System :=
  foldl step s events.
End Controller.
End Loop.

(* ===================================================================== *)
(** ** components/HandDetector.tsx: camera state and rendered controls *)
(* ===================================================================== *)

Module Component.
Import JS Types DOM HandDetector Loop.

(** *** Camera effect (lines 27-55) *)

Record MediaStream : Type := mkStream { tracks : list string }.

(** The [stream] and [error] state variables. *)
Record Camera : Type := mkCamera {
  stream : option MediaStream;
  error : option string;
}.

Definition initialCamera : Camera := mkCamera None None.

Definition cameraErrorMessage : string :=
  "Unable to access camera. Please allow permissions.".

(** [startCamera], once [getUserMedia] has settled. *)
Definition startCamera (getUserMedia : completion MediaStream) (c : Camera)
  : Camera :=
  match getUserMedia with
  | Normal mediaStream => mkCamera (Some mediaStream) (error c)
  | Throw _ => mkCamera (stream c) (Some cameraErrorMessage)
  end.

(** Line 195: with an error the panel replaces the video and the canvas,
    so [videoRef.current] is [null]. *)
Definition rendered (c : Camera) (page : Page) : Page :=
  match error c with
  | Some _ => mkPage None (getContext page) (drawImage page) (toDataURL page)
  | None => page
  end.

(** *** Controls (lines 218-295) *)

(** Lines 286-295: the capture button. *)
Inductive CaptureButton : Type := ButtonHidden | ButtonDisabled | ButtonEnabled.

Definition captureButton (settings : Settings) (state : AppState)
  : CaptureButton :=
  if autoProcess settings then ButtonHidden
  else if isProcessing state then ButtonDisabled
  else ButtonEnabled.

(** Which trigger the interface can fire in a given render. *)
Definition available (source : Source) (settings : Settings) (state : AppState)
  : bool :=
  match source with
  | Manual =>
      match captureButton settings state with
      | ButtonEnabled => true
      | _ => false
      end
  | Scheduled => schedules settings state
  end.

(** Line 226. *)
Definition statusText (state : AppState) : string :=
  if isProcessing state then "Processing..." else "Live".

(** Line 218. *)
Definition scanline (settings : Settings) (state : AppState) : bool :=
  autoProcess settings && isProcessing state.

Definition is_null (v : value) : bool :=
  match v with
  | Some JNull => true
  | _ => false
  end.

(** Line 228: is the confidence badge rendered? *)
Definition confidenceBadge (settings : Settings) (state : AppState) : bool :=
  showConfidence settings && truthy (currentResult state ≫= detected).

(** Line 257: the large figure. *)
Inductive Figure : Type :=
| Dash
| Shows (n : value).

Definition figure (state : AppState) : Figure :=
  match currentResult state with
  | None => Dash
  | Some r =>
      if truthy (detected r) && negb (is_null (number r))
      then Shows (number r)
      else Dash
  end.

(** Lines 263-267: the quoted explanation, when rendered. *)
Definition explanationShown (state : AppState) : option value :=
  let e := currentResult state ≫= explanation in
  if truthy e then Some e else None.

(** *** Strings without a comma *)
Fixpoint comma_free (s : string) : bool :=
  match s with
  | EmptyString => true
  | String c rest => negb (Ascii.eqb c ","%char) && comma_free rest
  end.

(** Every history entry is a detection. *)
Definition detections_only (state : AppState) : Prop :=
  Forall (fun item => truthy (detected (result item)) = true) (history state).

End Component.

(* ===================================================================== *)
(** ** Shapes of the client's results *)
(* ===================================================================== *)

Module ClientShapes.
Import JS Types GeminiService.

(** The result built at lines 87-93 around a given box. *)
Definition copied (parsed : json) (box : option BoundingBox) : DetectionResult :=
  {| detected := field parsed "detected";
     number := field parsed "number";
     boundingBox := box;
     confidence := field parsed "confidence";
     explanation := field parsed "explanation" |}.

Definition is_object (v : json) : bool :=
  match v with
  | JObj _ => true
  | _ => false
  end.

End ClientShapes.

(* ===================================================================== *)
(** ** Auxiliary notions for the loop and for exhaustive checks *)
(* ===================================================================== *)

Module Notions.
Import JS Types DOM HandDetector Loop Component.

(** [1; ...; n] *)
Fixpoint upto (n : nat) : list Z :=
  match n with
  | O => []
  | S k => upto k ++ [Z.of_nat (S k)]
  end.

(** Are all frames of width [W] with [320 * H < W] sampled at height 0? *)
Definition flat_at (W : Z) : bool :=
  forallb (fun H => height (tempCanvas (mkVideo W H)) =? 0)
          (upto (Z.to_nat ((W - 1) / 320))).

(** [prev[key]] *)
Definition read (key : Key) (prev : Settings) : bool :=
  match key with
  | KeyBoundingBox => showBoundingBox prev
  | KeyConfidence => showConfidence prev
  | KeyHistory => showHistory prev
  | KeyAutoProcess => autoProcess prev
  end.

(** The history holds at most 10 entries, all of them detections. *)
Definition tidy (state : AppState) : Prop :=
  (length (history state) <= 10)%nat /\ detections_only state.

(** Triggers fired on what is rendered for a given camera state. *)
Definition triggersOn (c : Camera) (calls : list (Source * Page)) : list Event :=
  (fun call => Trigger call.1 (rendered c call.2)) <$> calls.

Definition is_settle (e : Event) : bool :=
  match e with
  | Settle _ _ => true
  | _ => false
  end.

End Notions.

(* ===================================================================== *)
(** ** components/HandDetector.tsx: renders and the auto-process effect *)
(* ===================================================================== *)

Module Rendering.
Import JS Types DOM HandDetector Loop Component.

(** What the auto-process effect depends on (line 121):
    [settings.autoProcess], [state.isProcessing], and [processFrame],
    which [useCallback] renews exactly when [state.isProcessing] changes
    (line 107). *)
Definition dependencies (s : System) : bool * bool :=
  (autoProcess (settings s), isProcessing (app s)).

Definition same_dependencies (a b : bool * bool) : bool :=
  Bool.eqb a.1 b.1 && Bool.eqb a.2 b.2.

(** The mounted component: the system as last rendered, and whether a
    timeout set by the effect is still pending. *)
Record Mounted : Type := mkMounted {
  current : System;
  timeout : bool;
}.

(** The first render, after which the effect runs. *)
Definition mount : Mounted :=
  mkMounted initial (schedules (settings initial) (app initial)).

(** The render that follows an event.  The state updates made during the
    event are applied together and lead from [before] to [s]; [pending]
    tells whether a timeout is left over.  The effect runs again only when
    one of its dependencies has changed: its cleanup then clears what is
    pending, and the guard of line 113 decides on a new timeout. *)
Definition commit (before s : System) (pending : bool) : Mounted :=
  if same_dependencies (dependencies s) (dependencies before)
  then mkMounted s pending
  else mkMounted s (schedules (settings s) (app s)).

Inductive Happening : Type :=
| TimeoutFires (page : Page)
    (* the pending timeout calls [processFrame] *)
| Click (page : Page)
    (* a click on the capture button, if rendered and enabled *)
| Settles (remote : option string -> completion (option string)) (now : Z)
    (* the oldest outstanding request gets its answer *)
| Toggles (key : Key).

Definition is_toggle (h : Happening) : bool :=
  match h with
  | Toggles _ => true
  | _ => false
  end.

Section Component.
Variable StringToNumber : string -> float.
Variable ObjectToNumber : json -> completion float.
Variable JSON_parse : string -> option json.

Definition happen (m : Mounted) (h : Happening) : Mounted :=
  let step := step StringToNumber ObjectToNumber JSON_parse in
  match h with
  | TimeoutFires page =>
      if timeout m
      then commit (current m) (step (current m) (Trigger Scheduled page)) false
      else m
  | Click page =>
      match captureButton (settings (current m)) (app (current m)) with
      | ButtonEnabled =>
          commit (current m) (step (current m) (Trigger Manual page)) (timeout m)
      | _ => m
      end
  | Settles remote now =>
      commit (current m) (step (current m) (Settle remote now)) (timeout m)
  | Toggles key =>
      commit (current m) (step (current m) (Toggle key)) (timeout m)
  end.

Definition happenAll (m : Mounted) (happenings : list Happening) : Mounted :=
  foldl happen m happenings.
End Component.

End Rendering.

(* ===================================================================== *)
(** ** Sample data *)
(* ===================================================================== *)

Module Samples.
Import JS Types DOM HandDetector Loop GeminiService.

(** Response texts are written with apostrophes for the double quotes. *)
Fixpoint dq (s : string) : string :=
  match s with
  | EmptyString => EmptyString
  | String c rest =>
      String (if Ascii.eqb c "'"%char then Ascii.ascii_of_nat 34 else c) (dq rest)
  end.

Definition textFullFrame : string :=
  dq "{'detected':true,'number':5,'boundingBox':{'ymin':0,'xmin':0,'ymax':1000,'xmax':1000},'confidence':0.9}".
Definition parsedFullFrame : gmap string json :=
  list_to_map
    [("detected", JBool true); ("number", JNum 5);
     ("boundingBox",
      JObj (list_to_map [("ymin", JNum 0); ("xmin", JNum 0);
                         ("ymax", JNum 1000); ("xmax", JNum 1000)]));
     ("confidence", JNum 0.9)].

Definition textNoHand : string :=
  dq "{'detected':false,'number':3,'boundingBox':{'ymin':100,'xmin':200,'ymax':600,'xmax':700},'confidence':0.4}".
Definition parsedNoHand : gmap string json :=
  list_to_map
    [("detected", JBool false); ("number", JNum 3);
     ("boundingBox",
      JObj (list_to_map [("ymin", JNum 100); ("xmin", JNum 200);
                         ("ymax", JNum 600); ("xmax", JNum 700)]));
     ("confidence", JNum 0.4)].

Definition textNoBox : string :=
  dq "{'detected':true,'number':4,'confidence':0.87}".
Definition parsedNoBox : gmap string json :=
  list_to_map
    [("detected", JBool true); ("number", JNum 4); ("confidence", JNum 0.87)].

(** [JSON.parse] on the three texts above; other texts are not used. *)
Definition parse (text : string) : option json :=
  if String.eqb text textFullFrame then Some (JObj parsedFullFrame)
  else if String.eqb text textNoHand then Some (JObj parsedNoHand)
  else if String.eqb text textNoBox then Some (JObj parsedNoBox)
  else None.

(** None of the examples coerces a string, an array or an object. *)
Definition stringToNumber (s : string) : float := PrimFloat.nan.
Definition objectToNumber (o : json) : completion float := Normal PrimFloat.nan.

Definition answers (text : string) : option string -> completion (option string) :=
  fun _ => Normal (Some text).
Definition rejects : option string -> completion (option string) :=
  fun _ => Throw RemoteFailure.

Definition jpeg : option string := Some "/9j/4AAQSkZJRg".

Definition detect := detectHandNumber stringToNumber objectToNumber parse.

Definition resultNoHand : DetectionResult :=
  mkResult (bool_val false) (num_val 3) (Some (mkBox 0.1 0.2 0.6 0.7))
           (num_val 0.4) undefined.

(** A page whose video is live and whose canvas operations succeed. *)
Definition livePage (W H : Z) : Page :=
  mkPage (Some (mkVideo W H)) true (fun _ _ => Normal ())
         (fun _ => Normal "data:image/jpeg;base64,/9j/4AAQSkZJRg").
(** The same page when no 2d context can be obtained. *)
Definition noContextPage (W H : Z) : Page :=
  mkPage (Some (mkVideo W H)) false (fun _ _ => Normal ())
         (fun _ => Normal "data:image/jpeg;base64,/9j/4AAQSkZJRg").

Definition boxShown : BoundingBox := mkBox 0.1 0.2 0.6 0.5.
Definition resultShown : DetectionResult :=
  mkResult (bool_val true) (num_val 4) (Some boxShown) (num_val 0.87) undefined.

Definition resultFull : DetectionResult :=
  mkResult (bool_val true) (num_val 5) (Some (mkBox 0 0 1 1)) (num_val 0.9)
           undefined.

Definition stateShown : AppState := mkState false (Some resultShown) [].

Definition busy : System :=
  mkSystem (mkState true None []) initialSettings [jpeg].

End Samples.

(* ===================================================================== *)
(** ** Further sample data *)
(* ===================================================================== *)

Module Scenarios.
Import JS Types DOM HandDetector Loop GeminiService Component Rendering Samples.

Definition textNull : string := "null".

Definition textZeroBox : string :=
  dq "{'detected':true,'number':2,'boundingBox':0,'confidence':0.5}".
Definition parsedZeroBox : gmap string json :=
  list_to_map
    [("detected", JBool true); ("number", JNum 2); ("boundingBox", JNum 0);
     ("confidence", JNum 0.5)].

Definition textTrueBox : string :=
  dq "{'detected':true,'number':2,'boundingBox':true,'confidence':0.5}".
Definition parsedTrueBox : gmap string json :=
  list_to_map
    [("detected", JBool true); ("number", JNum 2); ("boundingBox", JBool true);
     ("confidence", JNum 0.5)].

Definition textPartialBox : string :=
  dq "{'detected':true,'number':2,'boundingBox':{'xmin':100,'ymax':null,'xmax':300},'confidence':0.5}".
Definition partialBox : gmap string json :=
  list_to_map [("xmin", JNum 100); ("ymax", JNull); ("xmax", JNum 300)].
Definition parsedPartialBox : gmap string json :=
  list_to_map
    [("detected", JBool true); ("number", JNum 2);
     ("boundingBox", JObj partialBox); ("confidence", JNum 0.5)].

Definition textShadowedBox : string :=
  dq "{'detected':true,'number':2,'boundingBox':{'ymin':{'valueOf':1,'toString':2},'xmin':1,'ymax':2,'xmax':3},'confidence':0.5}".
Definition shadowedBox : gmap string json :=
  list_to_map
    [("ymin", JObj (list_to_map [("valueOf", JNum 1); ("toString", JNum 2)]));
     ("xmin", JNum 1); ("ymax", JNum 2); ("xmax", JNum 3)].
Definition parsedShadowedBox : gmap string json :=
  list_to_map
    [("detected", JBool true); ("number", JNum 2);
     ("boundingBox", JObj shadowedBox); ("confidence", JNum 0.5)].

(** [JSON.parse] on the texts above and on those of [Samples]. *)
Definition parseMore (text : string) : option json :=
  if String.eqb text textNull then Some JNull
  else if String.eqb text textZeroBox then Some (JObj parsedZeroBox)
  else if String.eqb text textTrueBox then Some (JObj parsedTrueBox)
  else if String.eqb text textPartialBox then Some (JObj parsedPartialBox)
  else if String.eqb text textShadowedBox then Some (JObj parsedShadowedBox)
  else parse text.

(** The only object coerced in these data has numbers for [valueOf] and
    [toString], on which the coercion throws. *)
Definition shadowedToNumber (o : json) : completion float := Throw TypeError.

Definition detectMore :=
  detectHandNumber stringToNumber shadowedToNumber parseMore.

Definition header : string := "data:image/jpeg;base64".
Definition payload : string := "/9j/4AAQSkZJRg".

(** A result that says "not detected" and carries a box all the same. *)
Definition stateNoHand : AppState := mkState false (Some resultNoHand) [].
Definition stateNoHandDetected : AppState :=
  mkState false
    (Some (mkResult (bool_val true) (num_val 3) (Some (mkBox 0.1 0.2 0.6 0.7))
                    (num_val 0.99) (str_val "three")))
    [].

Definition play := happen stringToNumber objectToNumber parse.
Definition playAll := happenAll stringToNumber objectToNumber parse.

(** Live detection just switched on: the timeout is pending. *)
Definition liveMounted : Mounted := play mount (Toggles KeyAutoProcess).

Definition runStep := step stringToNumber objectToNumber parse.
Definition runAll := run stringToNumber objectToNumber parse.

End Scenarios.

(* ===================================================================== *)
(** ** Properties of the classification client *)
(* ===================================================================== *)

Module GeminiServiceFacts.
Import JS Types GeminiService.

Section Client.
Variable StringToNumber : string -> float.
Variable ObjectToNumber : json -> completion float.
Variable JSON_parse : string -> option json.
Variable generateContent : option string -> completion (option string).

Abbreviation detect_body :=
  (detect_body StringToNumber ObjectToNumber JSON_parse generateContent).
Abbreviation detectHandNumber :=
  (detectHandNumber StringToNumber ObjectToNumber JSON_parse generateContent).
Abbreviation normalizedBox := (normalizedBox StringToNumber ObjectToNumber).

(** The ways the claim lists for a call to fail. *)
Inductive failure (image : option string) : Prop :=
| remote_throws e :
    generateContent image = Throw e -> failure image
| body_throws e :
    detect_body image = Throw e -> failure image
| text_absent :
    generateContent image = Normal None -> failure image
| text_empty :
    generateContent image = Normal (Some "") -> failure image
| parse_fails text :
    generateContent image = Normal (Some text) ->
    JSON_parse text = None -> failure image.

Lemma detectHandNumber_total image :
  exists r, detectHandNumber image = Normal r.
Proof.
  unfold GeminiService.detectHandNumber.
  destruct detect_body as [r|e]; simpl; eauto.
Qed.

Lemma failure_throws image :
  failure image -> exists e, detect_body image = Throw e.
Proof.
  unfold GeminiService.detect_body.
  intros [e H|e H|H|H|text H Hparse]; try rewrite H; simpl; eauto.
  - destruct (String.eqb text ""); eauto. rewrite Hparse. eauto.
Qed.

Lemma throw_absorbed image e :
  detect_body image = Throw e -> detectHandNumber image = Normal errorResult.
Proof.
  intros H. unfold GeminiService.detectHandNumber. now rewrite H.
Qed.

(** C1: whatever the remote call does, [detectHandNumber] completes
    normally, and when the call fails (the remote rejects, anything in
    the body throws, the response text is absent or empty, or
    [JSON.parse] throws) the value returned is exactly the fixed
    negative result with the explanation "Error processing image". *)
Theorem detectHandNumber_absorbs_failures image :
  (exists r, detectHandNumber image = Normal r) /\
  (failure image -> detectHandNumber image = Normal errorResult).
Proof.
  split; [apply detectHandNumber_total|].
  intros Hf. destruct (failure_throws image Hf) as [e He].
  eapply throw_absorbed, He.
Qed.

Lemma get_field parsed k :
  parsed <> JNull -> get (Some parsed) k = Normal (field parsed k).
Proof. destruct parsed; intros Hnull; try reflexivity; congruence. Qed.

(** The [try] block once a non-empty text has been parsed. *)
Lemma detect_body_parsed image text parsed :
  generateContent image = Normal (Some text) ->
  String.eqb text "" = false ->
  JSON_parse text = Some parsed ->
  parsed <> JNull ->
  detect_body image =
    (box ← normalizedBox (field parsed "boundingBox");
     mret {| detected := field parsed "detected";
             number := field parsed "number";
             boundingBox := box;
             confidence := field parsed "confidence";
             explanation := field parsed "explanation" |}).
Proof.
  intros Hgen Htext Hparse Hnull.
  unfold GeminiService.detect_body. rewrite Hgen. simpl.
  rewrite Htext, Hparse. unfold GeminiService.normalizedBox.
  destruct parsed as [| b | x | s | items | props]; try congruence;
    reflexivity.
Qed.

Lemma detect_body_null image text :
  generateContent image = Normal (Some text) ->
  JSON_parse text = Some JNull ->
  exists e, detect_body image = Throw e.
Proof.
  intros Hgen Hparse. unfold GeminiService.detect_body. rewrite Hgen. simpl.
  destruct (String.eqb text ""); eauto. rewrite Hparse. simpl. eauto.
Qed.

Lemma normalize_numbers (box : gmap string json) y0 x0 y1 x1 :
  box !! "ymin" = Some (JNum y0) ->
  box !! "xmin" = Some (JNum x0) ->
  box !! "ymax" = Some (JNum y1) ->
  box !! "xmax" = Some (JNum x1) ->
  normalize StringToNumber ObjectToNumber (Some (JObj box)) =
    Normal (mkBox (y0 / 1000) (x0 / 1000) (y1 / 1000) (x1 / 1000)).
Proof.
  intros Hy0 Hx0 Hy1 Hx1. unfold normalize. simpl.
  rewrite Hy0, Hx0, Hy1, Hx1. reflexivity.
Qed.

End Client.

Lemma scale_1000_unit_interval (k : Z) :
  0 <= k <= 1000 -> in_unit_interval (num k / 1000) = true.
Proof.
  intros Hk.
  assert (Hall : forallb (fun n => in_unit_interval (num (Z.of_nat n) / 1000))
                         (seq 0 1001) = true) by (vm_compute; reflexivity).
  rewrite forallb_forall in Hall.
  specialize (Hall (Z.to_nat k)). rewrite Z2Nat.id in Hall by lia.
  apply Hall, in_seq. lia.
Qed.


Section ClientClaims.
Variable StringToNumber : string -> float.
Variable ObjectToNumber : json -> completion float.
Variable JSON_parse : string -> option json.
Variable generateContent : option string -> completion (option string).

Abbreviation detectHandNumber :=
  (detectHandNumber StringToNumber ObjectToNumber JSON_parse generateContent).
Abbreviation normalizedBox := (normalizedBox StringToNumber ObjectToNumber).

(** C3: when the parsed response carries a bounding box with numeric
    fields, the result's box holds each of the four fields divided by
    1000; 0 and 1000 become exactly 0.0 and 1.0, and every integer of the
    0-1000 scale lands in the unit interval. *)
Theorem bounding_box_rescaled image text props (box : gmap string json)
    y0 x0 y1 x1 :
  generateContent image = Normal (Some text) ->
  String.eqb text "" = false ->
  JSON_parse text = Some (JObj props) ->
  props !! "boundingBox" = Some (JObj box) ->
  box !! "ymin" = Some (JNum y0) ->
  box !! "xmin" = Some (JNum x0) ->
  box !! "ymax" = Some (JNum y1) ->
  box !! "xmax" = Some (JNum x1) ->
  (exists r,
      detectHandNumber image = Normal r /\
      boundingBox r =
        Some (mkBox (y0 / 1000) (x0 / 1000) (y1 / 1000) (x1 / 1000))) /\
  (0 / 1000 = 0)%float /\
  (1000 / 1000 = 1)%float /\
  (forall k, 0 <= k <= 1000 -> in_unit_interval (num k / 1000) = true).
Proof.
  intros Hgen Htext Hparse Hbox Hy0 Hx0 Hy1 Hx1.
  split; [|split; [reflexivity|split; [reflexivity|]]].
  - eexists. split.
    + unfold GeminiService.detectHandNumber.
      rewrite (detect_body_parsed _ _ _ _ image text (JObj props))
        by (assumption || discriminate).
      unfold GeminiService.normalizedBox. simpl. rewrite Hbox. simpl.
      rewrite (normalize_numbers _ _ box y0 x0 y1 x1) by assumption.
      simpl. reflexivity.
    + reflexivity.
  - apply scale_1000_unit_interval.
Qed.

(** C10: when the parsed response (anything but a bare [null], on which
    the first property read throws) has no [boundingBox] property, or has
    it set to [null], the result has a [null] box and its other four
    fields are the response's own, whatever [detected] says. *)
Theorem absent_box_passes_fields image text parsed :
  generateContent image = Normal (Some text) ->
  String.eqb text "" = false ->
  JSON_parse text = Some parsed ->
  parsed <> JNull ->
  field parsed "boundingBox" = None \/ field parsed "boundingBox" = Some JNull ->
  detectHandNumber image =
    Normal {| detected := field parsed "detected";
              number := field parsed "number";
              boundingBox := None;
              confidence := field parsed "confidence";
              explanation := field parsed "explanation" |}.
Proof.
  intros Hgen Htext Hparse Hnull Hbox.
  unfold GeminiService.detectHandNumber.
  rewrite (detect_body_parsed _ _ _ _ image text parsed) by assumption.
  unfold GeminiService.normalizedBox.
  destruct Hbox as [-> | ->]; reflexivity.
Qed.

(** C7, as the code has it: a returned result with [detected = false] is
    either the fixed negative result of the failure path, which has a
    [null] box, a [null] number and confidence 0, or a copy of a parsed
    response whose [detected] is [false]: then number and confidence are
    the response's own and the box is [null] exactly when the response's
    [boundingBox] is falsy. *)
Theorem negative_result_shape image r :
  detectHandNumber image = Normal r ->
  detected r = bool_val false ->
  (r = errorResult /\
   boundingBox r = None /\ number r = null /\ confidence r = num_val 0) \/
  (exists text parsed,
      generateContent image = Normal (Some text) /\
      JSON_parse text = Some parsed /\
      field parsed "detected" = bool_val false /\
      number r = field parsed "number" /\
      confidence r = field parsed "confidence" /\
      (boundingBox r = None <-> truthy (field parsed "boundingBox") = false)).
Proof.
  intros Hret Hdet.
  destruct (generateContent image) as [[text|]|e] eqn:Hgen.
  2,3: left; unfold GeminiService.detectHandNumber, detect_body in Hret;
       rewrite Hgen in Hret; simpl in Hret; injection Hret as <-; auto.
  destruct (String.eqb text "") eqn:Htext.
  { left. unfold GeminiService.detectHandNumber, detect_body in Hret.
    rewrite Hgen in Hret. simpl in Hret. rewrite Htext in Hret.
    injection Hret as <-; auto. }
  destruct (JSON_parse text) as [parsed|] eqn:Hparse.
  2: { left. unfold GeminiService.detectHandNumber, detect_body in Hret.
       rewrite Hgen in Hret. simpl in Hret. rewrite Htext, Hparse in Hret.
       injection Hret as <-; auto. }
  assert (Hcases : parsed = JNull \/ parsed <> JNull)
    by (destruct parsed; (left; reflexivity) || (right; discriminate)).
  destruct Hcases as [->|Hnull].
  { left. destruct (detect_body_null StringToNumber ObjectToNumber JSON_parse
               generateContent image text Hgen Hparse) as [e He].
    rewrite (throw_absorbed _ _ _ _ image e He) in Hret.
    injection Hret as <-; auto. }
  unfold GeminiService.detectHandNumber in Hret.
  rewrite (detect_body_parsed _ _ _ _ image text parsed) in Hret by assumption.
  unfold GeminiService.normalizedBox in Hret.
  destruct (truthy (field parsed "boundingBox")) eqn:Htruthy; simpl in Hret.
  - destruct (normalize _ _ _) as [box|e]; simpl in Hret;
      injection Hret as <-; [right|left; auto].
    exists text, parsed. simpl in *.
    repeat split; auto; try discriminate. congruence.
  - injection Hret as <-. right. exists text, parsed. simpl in *.
    repeat split; auto.
Qed.

End ClientClaims.
End GeminiServiceFacts.

(* ===================================================================== *)
(** ** Properties of the component's state updates and geometry *)
(* ===================================================================== *)

Module HandDetectorFacts.
Import JS Types DOM HandDetector.

(** *** History *)

Lemma take_app_take {A} (n k : nat) (l m : list A) :
  (n <= k)%nat -> take n (l ++ take k m) = take n (l ++ m).
Proof.
  revert n. induction l as [|a l IH]; intros n Hn; simpl.
  - rewrite take_take. f_equal. lia.
  - destruct n as [|n]; simpl; [reflexivity|].
    f_equal. apply IH. lia.
Qed.

Lemma recordResult_history_length r now prev :
  (length (history prev) <= 10)%nat ->
  (length (history (recordResult r now prev)) <= 10)%nat.
Proof.
  intros Hlen. unfold recordResult. cbn [history].
  destruct (truthy (detected r)); [|exact Hlen].
  rewrite length_take. lia.
Qed.

Lemma recordAll_history records s :
  (length (history s) <= 10)%nat ->
  history (recordAll records s) =
    take 10 (reverse (accepted records) ++ history s).
Proof.
  revert s. induction records as [|[r now] rest IH]; intros s Hlen.
  - simpl. now rewrite take_ge.
  - change (recordAll ((r, now) :: rest) s)
      with (recordAll rest (recordResult r now s)).
    rewrite IH by now apply recordResult_history_length.
    unfold recordResult. cbn [history accepted].
    destruct (truthy (detected r)); [|reflexivity].
    rewrite reverse_cons, <- app_assoc.
    now apply take_app_take.
Qed.

(** C4: after any sequence of recorded results, starting from the initial
    state, the history has at most 10 entries and consists of the detections
    in reverse order of recording (newest first), cut to 10; recording a
    result with [detected = false] leaves the history as it was, and one
    with [detected = true] puts its entry in front and keeps the first 10. *)
Theorem history_bounded_newest_first (records : list (DetectionResult * Z)) :
  (length (history (recordAll records initialState)) <= 10)%nat /\
  history (recordAll records initialState) =
    take 10 (reverse (accepted records)) /\
  (forall r now prev,
      detected r = bool_val false ->
      history (recordResult r now prev) = history prev) /\
  (forall r now prev,
      detected r = bool_val true ->
      history (recordResult r now prev) =
        take 10 (mkEntry now r :: history prev)).
Proof.
  assert (Hhist := recordAll_history records initialState).
  simpl in Hhist. rewrite app_nil_r in Hhist.
  specialize (Hhist ltac:(lia)).
  repeat split.
  - rewrite Hhist, length_take. lia.
  - exact Hhist.
  - intros r now prev Hd. unfold recordResult. cbn [history]. now rewrite Hd.
  - intros r now prev Hd. unfold recordResult. cbn [history]. now rewrite Hd.
Qed.

(** *** Overlay geometry *)

(** C2: when the overlay is drawn for a box, the mirrored abscissas are
    [1 - xmax] and [1 - xmin], the ordinates are used as they are, and the
    rectangle is obtained from them and the surface size by the stated
    products; for [xmin = 0.2], [xmax = 0.5] the mirrored values are 0.5
    and 0.8. *)
Theorem overlay_mirrors_box canvas video state settings r box :
  currentResult state = Some r ->
  boundingBox r = Some box ->
  showBoundingBox settings = true ->
  exists d,
    drawOverlay (Some canvas) true (Some video) state settings = Drawn d /\
    mirroredXMin d = (1 - xmax box)%float /\
    mirroredXMax d = (1 - xmin box)%float /\
    rect_x d = (mirroredXMin d * num (surfaceWidth d))%float /\
    rect_y d = (ymin box * num (surfaceHeight d))%float /\
    rect_w d = ((mirroredXMax d - mirroredXMin d) * num (surfaceWidth d))%float /\
    rect_h d = ((ymax box - ymin box) * num (surfaceHeight d))%float /\
    (xmin box = 0.2%float -> xmax box = 0.5%float ->
     mirroredXMin d = 0.5%float /\ mirroredXMax d = 0.8%float).
Proof.
  intros Hcur Hbox Hshow. unfold drawOverlay.
  rewrite Hcur. simpl. rewrite Hbox, Hshow. simpl.
  eexists. split; [reflexivity|]. simpl.
  do 6 (split; [reflexivity|]).
  intros Hxmin Hxmax. rewrite Hxmin, Hxmax. split; reflexivity.
Qed.

(** *** Frame sampler *)

Lemma processFrame_awaiting inFlight page updates base64Data image :
  processFrame inFlight page = Awaiting updates base64Data image ->
  exists video,
    videoRef page = Some video /\ inFlight = false /\
    videoWidth video <> 0 /\ videoHeight video <> 0 /\
    updates = [markProcessing] /\
    capture page video = Normal (image, base64Data) /\
    image = tempCanvas video.
Proof.
  unfold processFrame. destruct (videoRef page) as [video|]; [|discriminate].
  destruct inFlight; [discriminate|].
  destruct (videoWidth video =? 0) eqn:Hw; [discriminate|].
  destruct (videoHeight video =? 0) eqn:Hh; [discriminate|]. simpl.
  destruct (capture page video) as [[canvas data]|e] eqn:Hcap; [|discriminate].
  intros [= <- <- <-]. exists video.
  apply Z.eqb_neq in Hw, Hh. repeat split; auto.
  unfold capture in Hcap. destruct (getContext page); [|discriminate].
  simpl in Hcap. destruct (drawImage _ _ _); [|discriminate].
  simpl in Hcap. destruct (toDataURL _ _); [|discriminate].
  simpl in Hcap. now injection Hcap as <- _.
Qed.

Lemma half_height_640 (H : Z) :
  0 < H <= 4096 -> reflect 150 (targetHeight (mkVideo 640 H)) = H / 2.
Proof.
  intros HH.
  assert (Hall : forallb (fun n => reflect 150 (targetHeight (mkVideo 640 (Z.of_nat n)))
                                   =? Z.of_nat n / 2) (seq 1 4096) = true)
    by (vm_compute; reflexivity).
  rewrite forallb_forall in Hall.
  specialize (Hall (Z.to_nat H)). rewrite Z2Nat.id in Hall by lia.
  apply Z.eqb_eq, Hall, in_seq. lia.
Qed.

(** C6, as the code has it: the image sent has width exactly 320 and, as
    height, the number [H * (320 / W)] cut to an integer by the canvas
    attribute (towards zero), not rounded; at the requested capture width
    of 640 this is [H / 2] rounded down. *)
Theorem sampler_output_size page video updates base64Data image :
  videoRef page = Some video ->
  processFrame false page = Awaiting updates base64Data image ->
  width image = 320 /\
  height image = reflect 150 (targetHeight video) /\
  targetHeight video = (num (videoHeight video) * (320 / num (videoWidth video)))%float /\
  (videoWidth video = 640 -> 0 < videoHeight video <= 4096 ->
   height image = videoHeight video / 2).
Proof.
  intros Hvideo Hrun.
  destruct (processFrame_awaiting _ _ _ _ _ Hrun)
    as (video' & Hvideo' & _ & _ & _ & _ & _ & ->).
  rewrite Hvideo in Hvideo'. injection Hvideo' as <-.
  repeat split.
  intros Hw Hh. simpl. destruct video as [W H]. simpl in *. subst W.
  now apply half_height_640.
Qed.

End HandDetectorFacts.

(* ===================================================================== *)
(** ** Properties of the loop *)
(* ===================================================================== *)

Module LoopFacts.
Import JS Types DOM HandDetector Loop.

Lemma processFrame_in_flight page : processFrame true page = Returned.
Proof. unfold processFrame. now destruct (videoRef page). Qed.

Lemma processFrame_not_ready inFlight page video :
  videoRef page = Some video ->
  videoWidth video = 0 \/ videoHeight video = 0 ->
  processFrame inFlight page = Returned.
Proof.
  intros Hvideo Hzero. unfold processFrame. rewrite Hvideo.
  destruct inFlight; [reflexivity|].
  destruct Hzero as [-> | ->]; simpl; [reflexivity|].
  now rewrite orb_true_r.
Qed.

Lemma processFrame_ready inFlight page :
  processFrame inFlight page <> Returned ->
  exists video,
    videoRef page = Some video /\ inFlight = false /\
    videoWidth video <> 0 /\ videoHeight video <> 0.
Proof.
  unfold processFrame. destruct (videoRef page) as [video|]; [|congruence].
  destruct inFlight; [congruence|].
  destruct (videoWidth video =? 0) eqn:Hw; [simpl; congruence|].
  destruct (videoHeight video =? 0) eqn:Hh; [simpl; congruence|].
  intros _. exists video. apply Z.eqb_neq in Hw, Hh. auto.
Qed.

Lemma processFrame_caught page video e :
  videoRef page = Some video ->
  videoWidth video <> 0 ->
  videoHeight video <> 0 ->
  capture page video = Throw e ->
  processFrame false page = Caught [markProcessing; clearProcessing].
Proof.
  intros Hvideo Hw Hh Hcap. unfold processFrame. rewrite Hvideo.
  apply Z.eqb_neq in Hw, Hh. rewrite Hw, Hh. simpl. now rewrite Hcap.
Qed.

Lemma capture_without_context page video :
  getContext page = false ->
  capture page video = Throw (Error "Could not get context").
Proof. intros H. unfold capture. now rewrite H. Qed.

Section Controller.
Variable StringToNumber : string -> float.
Variable ObjectToNumber : json -> completion float.
Variable JSON_parse : string -> option json.

Abbreviation classify := (classify StringToNumber ObjectToNumber JSON_parse).
Abbreviation step := (step StringToNumber ObjectToNumber JSON_parse).
Abbreviation run := (run StringToNumber ObjectToNumber JSON_parse).

Lemma classify_total remote image : exists r, classify remote image = Normal r.
Proof. apply GeminiServiceFacts.detectHandNumber_total. Qed.

Lemma consistent_initial : consistent initial.
Proof. split; simpl; [lia|]. split; [discriminate|congruence]. Qed.

Lemma consistent_step s e : consistent s -> consistent (step s e).
Proof.
  intros [Hlen Hflag]. destruct e as [source page|remote now|key]; simpl.
  - destruct (isProcessing (app s)) eqn:Hp.
    + rewrite processFrame_in_flight. split; [exact Hlen|]. now rewrite Hp.
    + assert (Hnone : outstanding s = []).
      { destruct (outstanding s); [reflexivity|].
        assert (false = true) by (apply Hflag; discriminate). discriminate. }
      destruct (processFrame false page) as [|updates|updates data image] eqn:Hrun.
      * split; [exact Hlen|]. now rewrite Hp.
      * destruct (processFrame_ready false page) as (video & Hv & _ & Hw & Hh);
          [congruence|].
        unfold processFrame in Hrun. rewrite Hv in Hrun.
        apply Z.eqb_neq in Hw, Hh. rewrite Hw, Hh in Hrun. simpl in Hrun.
        destruct (capture page video) as [[c d]|err]; [discriminate|].
        injection Hrun as <-. rewrite Hnone. split; simpl; [lia|].
        split; [discriminate|congruence].
      * destruct (HandDetectorFacts.processFrame_awaiting _ _ _ _ _ Hrun)
          as (video & _ & _ & _ & _ & -> & _).
        rewrite Hnone. split; simpl; [lia|]. split; [discriminate|reflexivity].
  - destruct (outstanding s) as [|image rest] eqn:Hout.
    + split; [now rewrite Hout|]. now rewrite Hout.
    + simpl in Hlen. assert (rest = []) as -> by (destruct rest; simpl in *; [reflexivity|lia]).
      split; simpl; [lia|].
      destruct (classify remote image); simpl; split; (discriminate || congruence).
  - split; assumption.
Qed.

Lemma consistent_run events s : consistent s -> consistent (run s events).
Proof.
  revert s. induction events as [|e events IH]; intros s Hs; [exact Hs|].
  apply IH, consistent_step, Hs.
Qed.

(** C5: while the flag is up a trigger, manual or scheduled, changes
    nothing and issues nothing, and the effect schedules no timeout; along
    every run at most one request is outstanding, and the flag is up
    exactly while there is one; a request is only issued when none is
    outstanding and raises the flag; and the flag goes down only in the
    step that records the result of the outstanding request, which always
    does so. *)
Theorem one_request_at_a_time :
  (forall s source page,
      isProcessing (app s) = true -> step s (Trigger source page) = s) /\
  (forall settings state,
      isProcessing state = true -> schedules settings state = false) /\
  (forall events,
      (length (outstanding (run initial events)) <= 1)%nat /\
      (isProcessing (app (run initial events)) = true <->
       outstanding (run initial events) <> [])) /\
  (forall events source page,
      outstanding (step (run initial events) (Trigger source page))
        <> outstanding (run initial events) ->
      outstanding (run initial events) = [] /\
      isProcessing (app (step (run initial events) (Trigger source page))) = true) /\
  (forall s e,
      isProcessing (app s) = true ->
      isProcessing (app (step s e)) = false ->
      exists remote now image rest r,
        e = Settle remote now /\ outstanding s = image :: rest /\
        classify remote image = Normal r /\
        app (step s e) = recordResult r now (app s)) /\
  (forall s remote now image rest,
      outstanding s = image :: rest ->
      exists r,
        classify remote image = Normal r /\
        step s (Settle remote now) =
          mkSystem (recordResult r now (app s)) (settings s) rest /\
        isProcessing (app (step s (Settle remote now))) = false /\
        currentResult (app (step s (Settle remote now))) = Some r).
Proof.
  split; [|split; [|split; [|split; [|split]]]].
  - intros s source page Hp. simpl. now rewrite Hp, processFrame_in_flight.
  - intros settings state Hp. unfold schedules. rewrite Hp. apply andb_false_r.
  - intros events. apply consistent_run, consistent_initial.
  - intros events source page Hchange.
    destruct (consistent_run events initial consistent_initial) as [Hlen Hflag].
    set (s := run initial events) in *. simpl in Hchange |- *.
    destruct (processFrame (isProcessing (app s)) page)
      as [|updates|updates data image] eqn:Hrun;
      simpl in Hchange; try congruence.
    destruct (HandDetectorFacts.processFrame_awaiting _ _ _ _ _ Hrun)
      as (video & _ & Hp & _ & _ & -> & _).
    split; [|reflexivity].
    destruct (outstanding s); [reflexivity|].
    assert (isProcessing (app s) = true) by (apply Hflag; discriminate).
    congruence.
  - intros s e Hp Hclear. destruct e as [source page|remote now|key]; simpl in Hclear.
    + rewrite Hp, processFrame_in_flight in Hclear. congruence.
    + destruct (outstanding s) as [|image rest] eqn:Hout; [congruence|].
      destruct (classify_total remote image) as [r Hr].
      exists remote, now, image, rest, r. repeat split; auto.
      simpl. now rewrite Hout, Hr.
    + congruence.
  - intros s remote now image rest Hout.
    destruct (classify_total remote image) as [r Hr].
    exists r. simpl. rewrite Hout, Hr. simpl. auto.
Qed.

(** C8: while the video reports a zero width or a zero height, a call of
    [processFrame] returns at once: no state update is queued and no
    request is issued, so the whole system is left as it was; and whenever
    a call gets past its guards, so that the scale [320 / videoWidth] is
    computed, both dimensions are non-zero. *)
Theorem not_ready_is_noop page video :
  videoRef page = Some video ->
  videoWidth video = 0 \/ videoHeight video = 0 ->
  (forall inFlight, processFrame inFlight page = Returned) /\
  (forall s source, step s (Trigger source page) = s) /\
  (forall inFlight page',
      processFrame inFlight page' <> Returned ->
      exists video',
        videoRef page' = Some video' /\
        videoWidth video' <> 0 /\ videoHeight video' <> 0).
Proof.
  intros Hvideo Hzero. split; [|split].
  - intros inFlight. now apply processFrame_not_ready with video.
  - intros s source. simpl.
    now rewrite (processFrame_not_ready _ page video Hvideo Hzero).
  - intros inFlight page' Hrun.
    destruct (processFrame_ready inFlight page' Hrun) as (v & Hv & _ & Hw & Hh).
    eauto.
Qed.

(** What the handler of lines 103-106 does: when the capture throws after
    the flag was raised (for instance because no drawing context is
    available), the call ends with the flag down and [currentResult] and
    [history] as they were, no request is issued, and a later call is not
    held back by the flag; the same holds when the awaited promise
    rejects. *)
Lemma capture_failure_resets_flag page video e :
  videoRef page = Some video ->
  videoWidth video <> 0 ->
  videoHeight video <> 0 ->
  capture page video = Throw e ->
  exists rest,
    processFrame false page = Caught (markProcessing :: rest) /\
    (forall prev,
        isProcessing (markProcessing prev) = true /\
        setState (markProcessing :: rest) prev =
          mkState false (currentResult prev) (history prev)) /\
    (forall s source,
        isProcessing (app s) = false ->
        step s (Trigger source page) =
          mkSystem (mkState false (currentResult (app s)) (history (app s)))
                   (settings s) (outstanding s)) /\
    (forall prev page',
        processFrame (isProcessing (setState (markProcessing :: rest) prev)) page' =
        processFrame false page') /\
    (forall e' now prev,
        resume (Throw e') now prev =
          mkState false (currentResult prev) (history prev)).
Proof.
  intros Hvideo Hw Hh Hcap.
  assert (Hrun := processFrame_caught page video e Hvideo Hw Hh Hcap).
  exists [clearProcessing]. split; [exact Hrun|]. split; [|split; [|split]].
  - intros prev. split; reflexivity.
  - intros s source Hp. simpl. now rewrite Hp, Hrun.
  - reflexivity.
  - reflexivity.
Qed.

(** The case of a page on which no drawing context can be obtained. *)
Lemma no_context_resets_flag page video prev :
  videoRef page = Some video ->
  videoWidth video <> 0 ->
  videoHeight video <> 0 ->
  getContext page = false ->
  exists updates,
    processFrame false page = Caught updates /\
    setState updates prev = mkState false (currentResult prev) (history prev).
Proof.
  intros Hvideo Hw Hh Hctx. eexists. split.
  - eapply processFrame_caught; eauto using capture_without_context.
  - reflexivity.
Qed.

End Controller.
End LoopFacts.

(* ===================================================================== *)
(** ** Concrete runs *)
(* ===================================================================== *)

Module Examples.
Import JS Types DOM HandDetector Loop GeminiService.
Import Samples GeminiServiceFacts HandDetectorFacts LoopFacts.

Example detect_full_frame :
  detect (answers textFullFrame) jpeg = Normal resultFull.
Proof. vm_compute. reflexivity. Qed.

Example detect_no_hand : detect (answers textNoHand) jpeg = Normal resultNoHand.
Proof. vm_compute. reflexivity. Qed.

Example detect_rejected : detect rejects jpeg = Normal errorResult.
Proof. reflexivity. Qed.

Example sample_640x480 :
  processFrame false (livePage 640 480) =
    Awaiting [markProcessing] jpeg (mkCanvas 320 240).
Proof. vm_compute. reflexivity. Qed.

Example sample_1280x719 :
  targetHeight (mkVideo 1280 719) = 179.75%float /\
  processFrame false (livePage 1280 719) =
    Awaiting [markProcessing] jpeg (mkCanvas 320 179).
Proof. split; vm_compute; reflexivity. Qed.

(** Rounding of the scale can also lose a whole unit. *)
Example sample_77x77 :
  rounded_height 77 77 = 320 /\
  processFrame false (livePage 77 77) =
    Awaiting [markProcessing] jpeg (mkCanvas 320 319).
Proof. split; vm_compute; reflexivity. Qed.

(** *** The classification client on the examples *)

Lemma detectHandNumber_absorbs_failures_witness :
  detect rejects jpeg = Normal errorResult.
Proof.
  apply (proj2 (detectHandNumber_absorbs_failures
                  stringToNumber objectToNumber parse rejects jpeg)).
  apply remote_throws with RemoteFailure. reflexivity.
Defined.

Lemma bounding_box_rescaled_witness :
  exists r,
    detect (answers textFullFrame) jpeg = Normal r /\
    boundingBox r = Some (mkBox (0 / 1000) (0 / 1000) (1000 / 1000) (1000 / 1000)).
Proof.
  apply (proj1 (bounding_box_rescaled
                  stringToNumber objectToNumber parse (answers textFullFrame)
                  jpeg textFullFrame parsedFullFrame
                  (list_to_map [("ymin", JNum 0); ("xmin", JNum 0);
                                ("ymax", JNum 1000); ("xmax", JNum 1000)])
                  0 0 1000 1000
                  eq_refl eq_refl eq_refl eq_refl eq_refl eq_refl eq_refl eq_refl)).
Defined.

Lemma absent_box_passes_fields_witness :
  detect (answers textNoBox) jpeg =
    Normal (mkResult (bool_val true) (num_val 4) None (num_val 0.87) undefined).
Proof.
  apply (absent_box_passes_fields
           stringToNumber objectToNumber parse (answers textNoBox)
           jpeg textNoBox (JObj parsedNoBox) eq_refl eq_refl eq_refl).
  - discriminate.
  - left. reflexivity.
Defined.

(** C7 as stated fails: a response may say [detected = false] and still
    carry a number, a box and a non-zero confidence, and all of them are
    copied into the result. *)
Lemma negative_result_may_carry_box :
  ~ (forall StringToNumber ObjectToNumber JSON_parse generateContent image r,
        detectHandNumber StringToNumber ObjectToNumber JSON_parse
          generateContent image = Normal r ->
        detected r = bool_val false ->
        boundingBox r = None /\ number r = null /\ confidence r = num_val 0).
Proof.
  intros Hclaim.
  destruct (Hclaim stringToNumber objectToNumber parse (answers textNoHand)
              jpeg resultNoHand detect_no_hand eq_refl) as [Hbox _].
  discriminate Hbox.
Qed.

Lemma negative_result_shape_witness :
  (resultNoHand = errorResult /\
   boundingBox resultNoHand = None /\ number resultNoHand = null /\
   confidence resultNoHand = num_val 0) \/
  (exists text parsed,
      answers textNoHand jpeg = Normal (Some text) /\
      parse text = Some parsed /\
      field parsed "detected" = bool_val false /\
      number resultNoHand = field parsed "number" /\
      confidence resultNoHand = field parsed "confidence" /\
      (boundingBox resultNoHand = None <->
       truthy (field parsed "boundingBox") = false)).
Proof.
  apply (negative_result_shape
           stringToNumber objectToNumber parse (answers textNoHand)
           jpeg resultNoHand).
  - vm_compute. reflexivity.
  - reflexivity.
Defined.

(** *** The component on the examples *)

Lemma overlay_mirrors_box_witness :
  exists d,
    drawOverlay (Some createCanvas) true (Some (mkVideo 640 480))
                stateShown initialSettings = Drawn d /\
    mirroredXMin d = 0.5%float /\ mirroredXMax d = 0.8%float /\
    rect_x d = 320%float /\ rect_w d = (0.30000000000000004 * 640)%float.
Proof.
  destruct (overlay_mirrors_box createCanvas (mkVideo 640 480) stateShown
              initialSettings _ boxShown eq_refl eq_refl eq_refl)
    as (d & Hd & Hmin & Hmax & Hx & _ & Hw & _ & Hexample).
  exists d. split; [exact Hd|].
  destruct (Hexample eq_refl eq_refl) as [H05 H08].
  split; [exact H05|]. split; [exact H08|].
  rewrite Hx, Hw, H05, H08.
  unfold drawOverlay in Hd. simpl in Hd. injection Hd as <-.
  split; vm_compute; reflexivity.
Defined.

Lemma history_bounded_newest_first_witness :
  history (recordAll [(resultShown, 1000); (errorResult, 1010); (resultFull, 1020)]
                     initialState) =
    [mkEntry 1020 resultFull; mkEntry 1000 resultShown].
Proof.
  rewrite (proj1 (proj2 (history_bounded_newest_first
             [(resultShown, 1000); (errorResult, 1010); (resultFull, 1020)]))).
  reflexivity.
Defined.

(** C6 as stated fails: a 1280 x 719 frame gives a height of 179, while
    179.75 rounds to 180. *)
Lemma sampler_height_is_not_rounded :
  ~ (forall page video updates base64Data image,
        videoRef page = Some video ->
        0 < videoWidth video ->
        0 < videoHeight video ->
        processFrame false page = Awaiting updates base64Data image ->
        width image = 320 /\
        height image = rounded_height (videoWidth video) (videoHeight video)).
Proof.
  intros Hclaim.
  destruct (Hclaim (livePage 1280 719) (mkVideo 1280 719) _ _ _
              eq_refl eq_refl eq_refl (proj2 sample_1280x719)) as [_ Hheight].
  vm_compute in Hheight. discriminate Hheight.
Qed.

Lemma sampler_output_size_witness :
  width (mkCanvas 320 240) = 320 /\ height (mkCanvas 320 240) = 480 / 2.
Proof.
  destruct (sampler_output_size (livePage 640 480) (mkVideo 640 480)
              [markProcessing] jpeg (mkCanvas 320 240) eq_refl sample_640x480)
    as (Hwidth & _ & _ & Hhalf).
  split; [exact Hwidth|]. apply Hhalf; [reflexivity|simpl; lia].
Defined.

(** *** The loop on the examples *)

Lemma one_request_at_a_time_witness :
  step stringToNumber objectToNumber parse busy
       (Trigger Manual (livePage 640 480)) = busy /\
  step stringToNumber objectToNumber parse busy
       (Trigger Scheduled (livePage 640 480)) = busy.
Proof.
  split;
    apply (proj1 (one_request_at_a_time stringToNumber objectToNumber parse));
    reflexivity.
Defined.

Lemma not_ready_is_noop_witness :
  processFrame false (livePage 0 0) = Returned /\
  step stringToNumber objectToNumber parse initial
       (Trigger Scheduled (livePage 0 0)) = initial.
Proof.
  destruct (not_ready_is_noop stringToNumber objectToNumber parse
              (livePage 0 0) (mkVideo 0 0) eq_refl (or_introl eq_refl))
    as (Hcall & Hstep & _).
  split; [apply Hcall | apply Hstep].
Defined.

Lemma capture_failure_resets_flag_witness :
  step stringToNumber objectToNumber parse initial
       (Trigger Manual (noContextPage 640 480)) = initial.
Proof.
  destruct (capture_failure_resets_flag stringToNumber objectToNumber parse
              (noContextPage 640 480) (mkVideo 640 480)
              (Error "Could not get context") eq_refl
              ltac:(discriminate) ltac:(discriminate) eq_refl)
    as (rest & _ & _ & Hstep & _).
  apply (Hstep initial Manual eq_refl).
Defined.

End Examples.

(* ===================================================================== *)
(** ** Further properties of the classification client *)
(* ===================================================================== *)

Module GeminiServiceMore.
Import JS Types GeminiService ClientShapes GeminiServiceFacts.

Section Client.
Variable StringToNumber : string -> float.
Variable ObjectToNumber : json -> completion float.
Variable JSON_parse : string -> option json.
Variable generateContent : option string -> completion (option string).

Abbreviation detectHandNumber :=
  (detectHandNumber StringToNumber ObjectToNumber JSON_parse generateContent).
Abbreviation normalize := (normalize StringToNumber ObjectToNumber).
Abbreviation to_number := (to_number StringToNumber ObjectToNumber).

Lemma detect_with_box image text parsed bb :
  generateContent image = Normal (Some text) ->
  String.eqb text "" = false ->
  JSON_parse text = Some parsed ->
  parsed <> JNull ->
  field parsed "boundingBox" = Some bb ->
  truthy (Some bb) = true ->
  detectHandNumber image =
    match normalize (Some bb) with
    | Normal box => Normal (copied parsed (Some box))
    | Throw _ => Normal errorResult
    end.
Proof.
  intros Hgen Htext Hparse Hnull Hbb Htruthy.
  unfold GeminiService.detectHandNumber.
  rewrite (detect_body_parsed _ _ _ _ image text parsed) by assumption.
  unfold GeminiService.normalizedBox. rewrite Hbb, Htruthy.
  destruct (normalize (Some bb)) as [box|e]; reflexivity.
Qed.

Lemma normalize_object (box : gmap string json) :
  normalize (Some (JObj box)) =
    (ymin ← to_number (box !! "ymin");
     xmin ← to_number (box !! "xmin");
     ymax ← to_number (box !! "ymax");
     xmax ← to_number (box !! "xmax");
     mret (mkBox (ymin / 1000) (xmin / 1000) (ymax / 1000) (xmax / 1000))).
Proof.
  unfold GeminiService.normalize, divide. simpl.
  destruct (to_number (box !! "ymin")); simpl; [|reflexivity].
  destruct (to_number (box !! "xmin")); simpl; [|reflexivity].
  destruct (to_number (box !! "ymax")); simpl; [|reflexivity].
  destruct (to_number (box !! "xmax")); reflexivity.
Qed.

(** A response whose text parses to a bare [null] is a failure: the first
    property read throws, and the fixed negative result is returned. *)
Theorem null_response_is_failure image text :
  generateContent image = Normal (Some text) ->
  JSON_parse text = Some JNull ->
  detectHandNumber image = Normal errorResult.
Proof.
  intros Hgen Hparse.
  destruct (detect_body_null StringToNumber ObjectToNumber JSON_parse
              generateContent image text Hgen Hparse) as [e He].
  exact (throw_absorbed _ _ _ _ image e He).
Qed.

(** Any falsy [boundingBox] ([false], [0], [NaN], the empty string, as
    well as [null] and a missing property) gives a [null] box; the other
    fields are the response's. *)
Theorem falsy_box_dropped image text parsed :
  generateContent image = Normal (Some text) ->
  String.eqb text "" = false ->
  JSON_parse text = Some parsed ->
  parsed <> JNull ->
  truthy (field parsed "boundingBox") = false ->
  detectHandNumber image = Normal (copied parsed None).
Proof.
  intros Hgen Htext Hparse Hnull Hfalsy.
  unfold GeminiService.detectHandNumber.
  rewrite (detect_body_parsed _ _ _ _ image text parsed) by assumption.
  unfold GeminiService.normalizedBox. rewrite Hfalsy. reflexivity.
Qed.

(** A truthy [boundingBox] that is not an object ([true], a non-zero
    number, a non-empty string, an array) has none of the four
    properties: the result carries a box whose coordinates are all NaN. *)
Theorem non_object_box_is_nan image text parsed bb :
  generateContent image = Normal (Some text) ->
  String.eqb text "" = false ->
  JSON_parse text = Some parsed ->
  parsed <> JNull ->
  field parsed "boundingBox" = Some bb ->
  truthy (Some bb) = true ->
  is_object bb = false ->
  detectHandNumber image =
    Normal (copied parsed
              (Some (mkBox PrimFloat.nan PrimFloat.nan PrimFloat.nan PrimFloat.nan))).
Proof.
  intros Hgen Htext Hparse Hnull Hbb Htruthy Hobj.
  rewrite (detect_with_box image text parsed bb) by assumption.
  destruct bb; try discriminate; reflexivity.
Qed.

(** For a [boundingBox] object, each coordinate is ToNumber of the
    property divided by 1000, whatever the property holds: a missing one
    gives NaN, [null] gives 0. *)
Theorem box_fields_coerced image text parsed (box : gmap string json)
    y0 x0 y1 x1 :
  generateContent image = Normal (Some text) ->
  String.eqb text "" = false ->
  JSON_parse text = Some parsed ->
  parsed <> JNull ->
  field parsed "boundingBox" = Some (JObj box) ->
  to_number (box !! "ymin") = Normal y0 ->
  to_number (box !! "xmin") = Normal x0 ->
  to_number (box !! "ymax") = Normal y1 ->
  to_number (box !! "xmax") = Normal x1 ->
  detectHandNumber image =
    Normal (copied parsed
              (Some (mkBox (y0 / 1000) (x0 / 1000) (y1 / 1000) (x1 / 1000)))) /\
  (box !! "ymin" = None -> PrimFloat.is_nan (y0 / 1000) = true) /\
  (box !! "ymin" = Some JNull -> (y0 / 1000 = 0)%float).
Proof.
  intros Hgen Htext Hparse Hnull Hbb Hy0 Hx0 Hy1 Hx1. split; [|split].
  - rewrite (detect_with_box image text parsed (JObj box)) by (assumption || reflexivity).
    rewrite normalize_object, Hy0, Hx0, Hy1, Hx1. reflexivity.
  - intros Hnone. rewrite Hnone in Hy0. injection Hy0 as <-. reflexivity.
  - intros Hnull'. rewrite Hnull' in Hy0. injection Hy0 as <-. reflexivity.
Qed.

(** When the coercion of one coordinate throws, the whole response is
    given up, valid fields included, for the fixed negative result. *)
Theorem failed_coercion_discards_response image text parsed
    (box : gmap string json) k e :
  generateContent image = Normal (Some text) ->
  String.eqb text "" = false ->
  JSON_parse text = Some parsed ->
  parsed <> JNull ->
  field parsed "boundingBox" = Some (JObj box) ->
  k ∈ ["ymin"; "xmin"; "ymax"; "xmax"] ->
  to_number (box !! k) = Throw e ->
  detectHandNumber image = Normal errorResult.
Proof.
  intros Hgen Htext Hparse Hnull Hbb Hk Hthrow.
  rewrite (detect_with_box image text parsed (JObj box)) by (assumption || reflexivity).
  rewrite normalize_object.
  assert (Hcases : k = "ymin" \/ k = "xmin" \/ k = "ymax" \/ k = "xmax").
  { repeat (apply elem_of_cons in Hk as [Hk|Hk]; [auto|]).
    apply elem_of_nil in Hk. contradiction. }
  destruct (to_number (box !! "ymin")) as [y0|e0] eqn:H0; simpl; [|reflexivity].
  destruct (to_number (box !! "xmin")) as [x0|e1] eqn:H1; simpl; [|reflexivity].
  destruct (to_number (box !! "ymax")) as [y1|e2] eqn:H2; simpl; [|reflexivity].
  destruct (to_number (box !! "xmax")) as [x1|e3] eqn:H3; simpl; [|reflexivity].
  destruct Hcases as [-> | [-> | [-> | ->]]]; congruence.
Qed.

End Client.
End GeminiServiceMore.

(* ===================================================================== *)
(** ** Further properties of the sampler and of the overlay *)
(* ===================================================================== *)

Module HandDetectorMore.
Import JS Types DOM HandDetector Component Notions.

(** *** The payload of the data URL *)

Lemma after_comma_app header rest :
  comma_free header = true ->
  after_comma (String.append header (String ","%char rest)) = Some rest.
Proof.
  induction header as [|c header IH]; simpl; [reflexivity|].
  destruct (Ascii.eqb c ","%char); simpl; [discriminate|exact IH].
Qed.

Lemma after_comma_none s : comma_free s = true -> after_comma s = None.
Proof.
  induction s as [|c s IH]; simpl; [reflexivity|].
  destruct (Ascii.eqb c ","%char); simpl; [discriminate|exact IH].
Qed.

Lemma until_comma_free s : comma_free s = true -> until_comma s = s.
Proof.
  induction s as [|c s IH]; simpl; [reflexivity|].
  destruct (Ascii.eqb c ","%char); simpl; [discriminate|].
  intros H. now rewrite IH.
Qed.

Lemma processFrame_capture page video :
  videoRef page = Some video ->
  videoWidth video <> 0 ->
  videoHeight video <> 0 ->
  getContext page = true ->
  drawImage page video (tempCanvas video) = Normal () ->
  processFrame false page =
    match toDataURL page (tempCanvas video) with
    | Normal url => Awaiting [markProcessing] (split_comma_1 url) (tempCanvas video)
    | Throw _ => Caught [markProcessing; clearProcessing]
    end.
Proof.
  intros Hvideo Hw Hh Hctx Hdraw. unfold processFrame. rewrite Hvideo.
  apply Z.eqb_neq in Hw, Hh. rewrite Hw, Hh. simpl.
  unfold capture. rewrite Hctx, Hdraw. simpl.
  destruct (toDataURL page (tempCanvas video)); reflexivity.
Qed.

(** When the canvas encodes to [header,payload] with no comma in either
    part (base64 has none), the image sent is exactly the payload; when
    the encoding has no comma at all, the request is still issued, with
    an undefined image. *)
Theorem request_carries_payload page video url :
  videoRef page = Some video ->
  videoWidth video <> 0 ->
  videoHeight video <> 0 ->
  getContext page = true ->
  drawImage page video (tempCanvas video) = Normal () ->
  toDataURL page (tempCanvas video) = Normal url ->
  (forall header payload,
      url = String.append header (String ","%char payload) ->
      comma_free header = true ->
      comma_free payload = true ->
      processFrame false page =
        Awaiting [markProcessing] (Some payload) (tempCanvas video)) /\
  (comma_free url = true ->
   processFrame false page = Awaiting [markProcessing] None (tempCanvas video)).
Proof.
  intros Hvideo Hw Hh Hctx Hdraw Hurl.
  rewrite (processFrame_capture page video) by assumption. rewrite Hurl.
  unfold split_comma_1. split.
  - intros header payload -> Hheader Hpayload.
    rewrite after_comma_app by assumption. simpl.
    now rewrite until_comma_free.
  - intros Hfree. now rewrite after_comma_none.
Qed.

(** *** Degenerate frames *)

Lemma elem_of_upto n k : 0 < k <= Z.of_nat n -> k ∈ upto n.
Proof.
  induction n as [|n IH]; intros Hk; [lia|].
  simpl. apply elem_of_app.
  destruct (decide (k = Z.of_nat (S n))) as [->|Hne].
  - right. apply list_elem_of_singleton. reflexivity.
  - left. apply IH. lia.
Qed.

Lemma flat_frames_checked : forallb flat_at (upto 4096) = true.
Proof. vm_compute. reflexivity. Qed.

(** A frame more than 320 times wider than high (widths up to 4096) is
    sampled onto a canvas of height 0, and the call goes on to issue its
    request all the same. *)
Theorem flat_frame_has_height_zero page video :
  videoRef page = Some video ->
  0 < videoHeight video ->
  320 * videoHeight video < videoWidth video <= 4096 ->
  getContext page = true ->
  drawImage page video (tempCanvas video) = Normal () ->
  height (tempCanvas video) = 0 /\
  (forall url,
      toDataURL page (tempCanvas video) = Normal url ->
      exists image,
        processFrame false page = Awaiting [markProcessing] image (tempCanvas video)).
Proof.
  intros Hvideo HH HW Hctx Hdraw. split.
  - destruct video as [W H]. simpl in *.
    assert (Hall := flat_frames_checked). rewrite forallb_forall in Hall.
    specialize (Hall W). unfold flat_at in Hall.
    rewrite forallb_forall in Hall.
    apply Z.eqb_eq, Hall.
    + apply list_elem_of_In, elem_of_upto. lia.
    + apply list_elem_of_In, elem_of_upto.
      rewrite Z2Nat.id by (apply Z.div_pos; lia).
      split; [lia|]. apply Z.div_le_lower_bound; lia.
  - intros url Hurl. eexists.
    rewrite (processFrame_capture page video) by (assumption || lia).
    rewrite Hurl. reflexivity.
Qed.

(** *** Overlay *)

(** The three outcomes of the overlay effect, case by case: it draws only
    with a canvas, a context, a video, a box and the toggle on; with a
    canvas and a context but one of the others missing it clears; and
    without a canvas or a context it leaves the surface alone. *)
Theorem overlay_cases canvas context video state settings :
  match drawOverlay canvas context video state settings with
  | Drawn _ =>
      is_Some canvas /\ context = true /\ is_Some video /\
      is_Some (currentResult state ≫= boundingBox) /\
      showBoundingBox settings = true
  | Cleared =>
      is_Some canvas /\ context = true /\
      (video = None \/ currentResult state ≫= boundingBox = None \/
       showBoundingBox settings = false)
  | Untouched => canvas = None \/ context = false
  end.
Proof.
  unfold drawOverlay.
  destruct canvas as [canvas|]; [|now left].
  destruct video as [video|], (currentResult state ≫= boundingBox) as [box|],
    (showBoundingBox settings), context; simpl; eauto 10.
Qed.

(** The overlay reads nothing of the current result but its box and its
    number: results that agree on these two are drawn alike, whatever
    their [detected], confidence and explanation. *)
Theorem overlay_reads_box_and_number canvas context video state state' settings :
  currentResult state ≫= boundingBox = currentResult state' ≫= boundingBox ->
  currentResult state ≫= number = currentResult state' ≫= number ->
  drawOverlay canvas context video state settings =
    drawOverlay canvas context video state' settings.
Proof.
  intros Hbox Hnum. unfold drawOverlay. rewrite <- Hbox, <- Hnum.
  destruct canvas as [canvas|], video as [video|]; try reflexivity.
Qed.

Lemma to_unsigned_long_num (n : Z) :
  0 <= n <= 4096 -> to_unsigned_long (num n) = n.
Proof.
  intros Hn.
  assert (Hall : forallb (fun k => to_unsigned_long (num (Z.of_nat k)) =? Z.of_nat k)
                         (seq 0 4097) = true) by (vm_compute; reflexivity).
  rewrite forallb_forall in Hall.
  specialize (Hall (Z.to_nat n)). rewrite Z2Nat.id in Hall by lia.
  apply Z.eqb_eq, Hall, in_seq. lia.
Qed.

(** When the overlay is drawn, its surface has been resized to the
    video's own dimensions (up to 4096 each), whatever size it had. *)
Theorem overlay_surface_is_video canvas video state settings d :
  drawOverlay (Some canvas) true (Some video) state settings = Drawn d ->
  0 <= videoWidth video <= 4096 ->
  0 <= videoHeight video <= 4096 ->
  surfaceWidth d = videoWidth video /\ surfaceHeight d = videoHeight video.
Proof.
  unfold drawOverlay.
  destruct (currentResult state ≫= boundingBox) as [box|]; [|discriminate].
  destruct (showBoundingBox settings); [|discriminate]. simpl.
  intros [= <-] Hw Hh. simpl. unfold reflect.
  rewrite !to_unsigned_long_num by assumption.
  destruct (videoWidth video <=? 2147483647) eqn:Ew;
    [|apply Z.leb_gt in Ew; lia].
  destruct (videoHeight video <=? 2147483647) eqn:Eh;
    [|apply Z.leb_gt in Eh; lia].
  split; reflexivity.
Qed.

End HandDetectorMore.

(* ===================================================================== *)
(** ** Further properties of the loop, the controls and the camera *)
(* ===================================================================== *)

Module LoopMore.
Import JS Types DOM HandDetector Loop Component Notions.
Import GeminiServiceFacts LoopFacts.

Lemma processFrame_updates inFlight page :
  match processFrame inFlight page with
  | Returned => True
  | Caught updates => updates = [markProcessing; clearProcessing]
  | Awaiting updates _ _ => updates = [markProcessing]
  end.
Proof.
  unfold processFrame. destruct (videoRef page) as [video|]; [|exact I].
  destruct inFlight; [exact I|].
  destruct ((videoWidth video =? 0) || (videoHeight video =? 0)); [exact I|].
  destruct (capture page video) as [[canvas data]|e]; reflexivity.
Qed.

(** [toggleSetting] flips the key it is given and no other, so that
    toggling twice restores the settings. *)
Theorem toggle_flips_one_key key prev :
  read key (toggleSetting key prev) = negb (read key prev) /\
  (forall other, other <> key ->
                 read other (toggleSetting key prev) = read other prev) /\
  toggleSetting key (toggleSetting key prev) = prev.
Proof.
  split; [|split].
  - destruct key; reflexivity.
  - intros other Hne. destruct key, other; congruence || reflexivity.
  - destruct prev, key; simpl; now rewrite negb_involutive.
Qed.

Lemma toggleSetting_comm key key' prev :
  toggleSetting key (toggleSetting key' prev) =
  toggleSetting key' (toggleSetting key prev).
Proof. destruct key, key'; reflexivity. Qed.

Section Controller.
Variable StringToNumber : string -> float.
Variable ObjectToNumber : json -> completion float.
Variable JSON_parse : string -> option json.

Abbreviation classify := (classify StringToNumber ObjectToNumber JSON_parse).
Abbreviation step := (step StringToNumber ObjectToNumber JSON_parse).
Abbreviation run := (run StringToNumber ObjectToNumber JSON_parse).
Abbreviation failure := (failure StringToNumber ObjectToNumber JSON_parse).

Lemma step_trigger s source page :
  step s (Trigger source page) = s \/
  (isProcessing (app s) = false /\
   step s (Trigger source page) =
     mkSystem (mkState false (currentResult (app s)) (history (app s)))
              (settings s) (outstanding s)) \/
  (isProcessing (app s) = false /\
   exists data,
     step s (Trigger source page) =
       mkSystem (mkState true (currentResult (app s)) (history (app s)))
                (settings s) (outstanding s ++ [data])).
Proof.
  simpl. assert (Hu := processFrame_updates (isProcessing (app s)) page).
  destruct (processFrame (isProcessing (app s)) page)
    as [|updates|updates data image] eqn:Hrun.
  - now left.
  - right; left. subst updates. split; [|reflexivity].
    destruct (isProcessing (app s)); [|reflexivity].
    rewrite processFrame_in_flight in Hrun. discriminate.
  - right; right. subst updates. split; [|eexists; reflexivity].
    destruct (isProcessing (app s)); [|reflexivity].
    rewrite processFrame_in_flight in Hrun. discriminate.
Qed.

(** Only the settling of a request changes the current result and the
    history: triggers (whether they return early, fail or issue a
    request) and toggles leave both as they are. *)
Theorem results_change_only_on_settle s e :
  is_settle e = false ->
  currentResult (app (step s e)) = currentResult (app s) /\
  history (app (step s e)) = history (app s).
Proof.
  destruct e as [source page|remote now|key]; [|discriminate|]; intros _.
  - destruct (step_trigger s source page) as [-> | [[_ ->] | [_ [data ->]]]];
      split; reflexivity.
  - split; reflexivity.
Qed.

(** A settings toggle commutes with every other event: processing never
    reads the settings, so a result is applied in the same way whether a
    toggle came before or after it. *)
Theorem toggle_commutes s key e :
  step (step s (Toggle key)) e = step (step s e) (Toggle key).
Proof.
  destruct e as [source page|remote now|key'].
  - simpl. destruct (processFrame (isProcessing (app s)) page); reflexivity.
  - simpl. destruct (outstanding s) as [|image rest] eqn:Hout; simpl;
      rewrite ?Hout; reflexivity.
  - simpl. now rewrite toggleSetting_comm.
Qed.

Lemma tidy_step s e : tidy (app s) -> tidy (app (step s e)).
Proof.
  intros [Hlen Hdet]. destruct e as [source page|remote now|key].
  - destruct (step_trigger s source page) as [-> | [[_ ->] | [_ [data ->]]]];
      split; assumption.
  - simpl. destruct (outstanding s) as [|image rest]; [split; assumption|].
    simpl. destruct (classify remote image) as [r|err]; simpl;
      [|split; assumption].
    unfold tidy, detections_only, recordResult. cbn [history].
    destruct (truthy (detected r)) eqn:Hr; [|split; assumption]. split.
    + rewrite length_take. lia.
    + apply Forall_take. constructor; assumption.
  - split; assumption.
Qed.

Lemma tidy_run events s : tidy (app s) -> tidy (app (run s events)).
Proof.
  revert s. induction events as [|e events IH]; intros s Hs; [exact Hs|].
  apply IH, tidy_step, Hs.
Qed.

(** Along every run of the loop, with triggers, toggles and settling
    requests in any order, the history holds at most 10 entries, each of
    them a detection; in particular the negative result of a failed call
    never enters it. *)
Theorem history_holds_detections events :
  (length (history (app (run initial events))) <= 10)%nat /\
  detections_only (app (run initial events)) /\
  (forall item,
      item ∈ history (app (run initial events)) ->
      result item <> GeminiService.errorResult).
Proof.
  destruct (tidy_run events initial) as [Hlen Hdet].
  { split; [simpl; lia|constructor]. }
  split; [exact Hlen|]. split; [exact Hdet|].
  intros item Hin Heq. unfold detections_only in Hdet.
  rewrite Forall_forall in Hdet. specialize (Hdet item Hin).
  rewrite Heq in Hdet. discriminate.
Qed.

(** When the outstanding request fails, the step that settles it lowers
    the flag, makes the fixed negative result current and keeps the
    history; the interface then shows the dash, no confidence badge, the
    explanation "Error processing image", and draws no box. *)
Theorem failed_request_shows_error s remote now image rest :
  outstanding s = image :: rest ->
  failure remote image ->
  step s (Settle remote now) =
    mkSystem (mkState false (Some GeminiService.errorResult) (history (app s)))
             (settings s) rest /\
  figure (app (step s (Settle remote now))) = Dash /\
  confidenceBadge (settings s) (app (step s (Settle remote now))) = false /\
  explanationShown (app (step s (Settle remote now))) =
    Some (str_val "Error processing image") /\
  (forall canvas context video d,
      drawOverlay canvas context video (app (step s (Settle remote now)))
                  (settings s) <> Drawn d).
Proof.
  intros Hout Hfail.
  destruct (failure_throws _ _ _ _ image Hfail) as [e He].
  assert (Hr := throw_absorbed _ _ _ _ image e He).
  assert (Hstep : step s (Settle remote now) =
            mkSystem (mkState false (Some GeminiService.errorResult)
                              (history (app s))) (settings s) rest).
  { simpl. rewrite Hout. unfold Loop.classify. rewrite Hr. reflexivity. }
  rewrite Hstep. simpl. repeat split.
  - unfold confidenceBadge. simpl. apply andb_false_r.
  - intros canvas context video d. unfold drawOverlay. simpl.
    destruct canvas, video, context; discriminate.
Qed.

(** In every reachable state a trigger is on offer (capture button
    enabled, or a timeout scheduled) only when the flag is down and no
    request is outstanding, and the two triggers are never on offer
    together. *)
Theorem triggers_offered_when_idle events source :
  available source (settings (run initial events)) (app (run initial events)) = true ->
  isProcessing (app (run initial events)) = false /\
  outstanding (run initial events) = [] /\
  available Manual (settings (run initial events)) (app (run initial events)) &&
  available Scheduled (settings (run initial events)) (app (run initial events)) = false.
Proof.
  destruct (consistent_run StringToNumber ObjectToNumber JSON_parse events initial
              consistent_initial) as [_ Hflag].
  set (s := run initial events) in *. intros Hav.
  assert (Hp : isProcessing (app s) = false).
  { destruct source; simpl in Hav; unfold captureButton, schedules in Hav;
      destruct (autoProcess (settings s)), (isProcessing (app s));
      (discriminate || reflexivity). }
  split; [exact Hp|]. split.
  - destruct (outstanding s); [reflexivity|].
    assert (isProcessing (app s) = true) by (apply Hflag; discriminate).
    congruence.
  - simpl. unfold captureButton, schedules.
    destruct (autoProcess (settings s)), (isProcessing (app s)); reflexivity.
Qed.

(** After a camera failure the error message is set, and, the video not
    being rendered, every call of [processFrame] returns at once: no
    sequence of triggers changes the system. *)
Theorem camera_failure_stops_processing e c s calls :
  error (startCamera (Throw e) c) = Some cameraErrorMessage /\
  stream (startCamera (Throw e) c) = stream c /\
  run s (triggersOn (startCamera (Throw e) c) calls) = s.
Proof.
  split; [reflexivity|]. split; [reflexivity|].
  induction calls as [|[source page] calls IH]; [reflexivity|].
  simpl. destruct (isProcessing (app s)); exact IH.
Qed.

(** A whole cycle from an idle state on a working page: the trigger
    issues one request carrying the sampled image, and settling it
    records what the client makes of the remote's answer, leaving the
    system idle again. *)
Theorem cycle_records_classification s source page video url remote now :
  isProcessing (app s) = false ->
  outstanding s = [] ->
  videoRef page = Some video ->
  videoWidth video <> 0 ->
  videoHeight video <> 0 ->
  getContext page = true ->
  drawImage page video (tempCanvas video) = Normal () ->
  toDataURL page (tempCanvas video) = Normal url ->
  outstanding (step s (Trigger source page)) = [split_comma_1 url] /\
  exists r,
    classify remote (split_comma_1 url) = Normal r /\
    run s [Trigger source page; Settle remote now] =
      mkSystem (recordResult r now (app s)) (settings s) [].
Proof.
  intros Hp Hout Hvideo Hw Hh Hctx Hdraw Hurl.
  assert (Hrun := HandDetectorMore.processFrame_capture page video
                    Hvideo Hw Hh Hctx Hdraw).
  rewrite Hurl in Hrun.
  assert (Hstep : step s (Trigger source page) =
            mkSystem (markProcessing (app s)) (settings s) [split_comma_1 url]).
  { simpl. rewrite Hp, Hrun, Hout. reflexivity. }
  split; [now rewrite Hstep|].
  destruct (classify_total StringToNumber ObjectToNumber JSON_parse remote
              (split_comma_1 url)) as [r Hr].
  exists r. split; [exact Hr|].
  unfold Loop.run. cbn [foldl]. rewrite Hstep. simpl.
  unfold Loop.classify in Hr |- *. rewrite Hr. reflexivity.
Qed.

(** In every reachable state the status line reads "Processing..."
    exactly while a request is outstanding, and "Live" otherwise; the
    scanline is shown only in live detection with a request outstanding. *)
Theorem status_tells_outstanding events :
  (statusText (app (run initial events)) = "Processing..." <->
   outstanding (run initial events) <> []) /\
  (statusText (app (run initial events)) = "Live" <->
   outstanding (run initial events) = []) /\
  (scanline (settings (run initial events)) (app (run initial events)) = true ->
   autoProcess (settings (run initial events)) = true /\
   outstanding (run initial events) <> []).
Proof.
  destruct (consistent_run StringToNumber ObjectToNumber JSON_parse events initial
              consistent_initial) as [_ Hflag].
  set (s := run initial events) in *. unfold statusText, scanline.
  destruct (isProcessing (app s)) eqn:Hp.
  - assert (Hne : outstanding s <> []) by now apply Hflag.
    split; [|split].
    + split; [intros _; exact Hne|reflexivity].
    + split; [discriminate|intros Hnil; contradiction].
    + intros Hscan. rewrite andb_true_r in Hscan. auto.
  - assert (Hnil : outstanding s = []).
    { destruct (outstanding s); [reflexivity|].
      assert (false = true) by (apply Hflag; discriminate). discriminate. }
    split; [|split].
    + split; [discriminate|intros Hne; contradiction].
    + split; [intros _; exact Hnil|reflexivity].
    + rewrite andb_false_r. discriminate.
Qed.

End Controller.
End LoopMore.

(* ===================================================================== *)
(** ** Further concrete runs *)
(* ===================================================================== *)

Module MoreExamples.
Import JS Types DOM HandDetector Loop GeminiService Component ClientShapes.
Import Notions Samples Scenarios.
Import GeminiServiceFacts GeminiServiceMore HandDetectorMore LoopMore.

(** *** The client *)

Lemma null_response_is_failure_witness :
  detectMore (answers textNull) jpeg = Normal errorResult.
Proof.
  apply (null_response_is_failure stringToNumber shadowedToNumber parseMore
           (answers textNull) jpeg textNull eq_refl eq_refl).
Defined.

Lemma falsy_box_dropped_witness :
  detectMore (answers textZeroBox) jpeg =
    Normal (mkResult (bool_val true) (num_val 2) None (num_val 0.5) undefined).
Proof.
  apply (falsy_box_dropped stringToNumber shadowedToNumber parseMore
           (answers textZeroBox) jpeg textZeroBox (JObj parsedZeroBox)
           eq_refl eq_refl eq_refl).
  - discriminate.
  - reflexivity.
Defined.

Lemma non_object_box_is_nan_witness :
  detectMore (answers textTrueBox) jpeg =
    Normal (mkResult (bool_val true) (num_val 2)
              (Some (mkBox PrimFloat.nan PrimFloat.nan PrimFloat.nan PrimFloat.nan))
              (num_val 0.5) undefined).
Proof.
  apply (non_object_box_is_nan stringToNumber shadowedToNumber parseMore
           (answers textTrueBox) jpeg textTrueBox (JObj parsedTrueBox)
           (JBool true) eq_refl eq_refl eq_refl).
  - discriminate.
  - reflexivity.
  - reflexivity.
  - reflexivity.
Defined.

Lemma box_fields_coerced_witness :
  detectMore (answers textPartialBox) jpeg =
    Normal (mkResult (bool_val true) (num_val 2)
              (Some (mkBox PrimFloat.nan 0.1 0 0.3)) (num_val 0.5) undefined).
Proof.
  apply (proj1 (box_fields_coerced stringToNumber shadowedToNumber parseMore
                  (answers textPartialBox) jpeg textPartialBox
                  (JObj parsedPartialBox) partialBox PrimFloat.nan 100 0 300
                  eq_refl eq_refl eq_refl ltac:(discriminate) eq_refl
                  eq_refl eq_refl eq_refl eq_refl)).
Defined.

Lemma failed_coercion_discards_response_witness :
  detectMore (answers textShadowedBox) jpeg = Normal errorResult.
Proof.
  apply (failed_coercion_discards_response stringToNumber shadowedToNumber
           parseMore (answers textShadowedBox) jpeg textShadowedBox
           (JObj parsedShadowedBox) shadowedBox "ymin" TypeError
           eq_refl eq_refl eq_refl).
  - discriminate.
  - reflexivity.
  - apply list_elem_of_here.
  - reflexivity.
Defined.

(** *** The sampler and the overlay *)

Lemma request_carries_payload_witness :
  processFrame false (livePage 640 480) =
    Awaiting [markProcessing] (Some payload) (tempCanvas (mkVideo 640 480)).
Proof.
  apply (proj1 (request_carries_payload (livePage 640 480) (mkVideo 640 480)
                  (String.append header (String ","%char payload))
                  eq_refl ltac:(discriminate) ltac:(discriminate)
                  eq_refl eq_refl eq_refl)
               header payload eq_refl eq_refl eq_refl).
Defined.

Lemma flat_frame_has_height_zero_witness :
  height (tempCanvas (mkVideo 1280 3)) = 0.
Proof.
  apply (proj1 (flat_frame_has_height_zero (livePage 1280 3) (mkVideo 1280 3)
                  eq_refl ltac:(simpl; lia) ltac:(simpl; lia) eq_refl eq_refl)).
Defined.

Lemma overlay_reads_box_and_number_witness :
  drawOverlay (Some createCanvas) true (Some (mkVideo 640 480))
              stateNoHand initialSettings =
  drawOverlay (Some createCanvas) true (Some (mkVideo 640 480))
              stateNoHandDetected initialSettings.
Proof.
  apply (overlay_reads_box_and_number (Some createCanvas) true
           (Some (mkVideo 640 480)) stateNoHand stateNoHandDetected
           initialSettings eq_refl eq_refl).
Defined.

Lemma overlay_surface_is_video_witness :
  exists d,
    drawOverlay (Some createCanvas) true (Some (mkVideo 640 480))
                stateShown initialSettings = Drawn d /\
    surfaceWidth d = 640 /\ surfaceHeight d = 480.
Proof.
  assert (H : exists d,
             drawOverlay (Some createCanvas) true (Some (mkVideo 640 480))
                         stateShown initialSettings = Drawn d)
    by (eexists; reflexivity).
  destruct H as [d H]. exists d. split; [exact H|].
  apply (overlay_surface_is_video createCanvas (mkVideo 640 480) stateShown
           initialSettings d H); simpl; lia.
Defined.

(** *** The loop, the controls and the camera *)

Lemma toggle_flips_one_key_witness :
  read KeyHistory (toggleSetting KeyAutoProcess initialSettings) =
    read KeyHistory initialSettings.
Proof.
  apply (proj1 (proj2 (toggle_flips_one_key KeyAutoProcess initialSettings))
               KeyHistory).
  discriminate.
Defined.

Lemma results_change_only_on_settle_witness :
  currentResult
    (app (runStep (mkSystem stateShown initialSettings [])
                  (Trigger Manual (livePage 640 480)))) = Some resultShown.
Proof.
  apply (proj1 (results_change_only_on_settle stringToNumber objectToNumber
                  parse (mkSystem stateShown initialSettings [])
                  (Trigger Manual (livePage 640 480)) eq_refl)).
Defined.

Lemma history_holds_detections_witness :
  (length (history (app (runAll initial
             [Trigger Manual (livePage 640 480); Settle rejects 1000]))) <= 10)%nat.
Proof.
  apply (proj1 (history_holds_detections stringToNumber objectToNumber parse
                  [Trigger Manual (livePage 640 480); Settle rejects 1000])).
Defined.

Lemma failed_request_shows_error_witness :
  runStep busy (Settle rejects 1000) =
    mkSystem (mkState false (Some errorResult) []) initialSettings [].
Proof.
  apply (proj1 (failed_request_shows_error stringToNumber objectToNumber parse
                  busy rejects 1000 jpeg [] eq_refl
                  (remote_throws stringToNumber objectToNumber parse rejects
                     jpeg RemoteFailure eq_refl))).
Defined.

Lemma triggers_offered_when_idle_witness :
  isProcessing (app (runAll initial [])) = false /\
  outstanding (runAll initial []) = [].
Proof.
  destruct (triggers_offered_when_idle stringToNumber objectToNumber parse
              [] Manual eq_refl) as (Hflag & Hnone & _).
  split; [exact Hflag|exact Hnone].
Defined.

Lemma cycle_records_classification_witness :
  runAll initial [Trigger Manual (livePage 640 480);
                  Settle (answers textFullFrame) 1000] =
    mkSystem (mkState false (Some resultFull) [mkEntry 1000 resultFull])
             initialSettings [].
Proof.
  destruct (cycle_records_classification stringToNumber objectToNumber parse
              initial Manual (livePage 640 480) (mkVideo 640 480)
              (String.append header (String ","%char payload))
              (answers textFullFrame) 1000
              eq_refl eq_refl eq_refl ltac:(discriminate) ltac:(discriminate)
              eq_refl eq_refl eq_refl) as [_ (r & Hr & Hrun)].
  change (runAll initial [Trigger Manual (livePage 640 480);
                          Settle (answers textFullFrame) 1000])
    with (run stringToNumber objectToNumber parse initial
              [Trigger Manual (livePage 640 480);
               Settle (answers textFullFrame) 1000]).
  rewrite Hrun. vm_compute in Hr. injection Hr as <-. reflexivity.
Defined.

Lemma status_tells_outstanding_witness :
  statusText (app (runAll initial [])) = "Live".
Proof.
  apply (proj2 (proj1 (proj2 (status_tells_outstanding stringToNumber
                                objectToNumber parse [])))).
  reflexivity.
Defined.

End MoreExamples.

(* ===================================================================== *)
(** ** The auto-process loop across renders *)
(* ===================================================================== *)

Module RenderingFacts.
Import JS Types DOM HandDetector Loop Component Rendering.
Import LoopFacts.


Lemma commit_unchanged s pending : commit s s pending = mkMounted s pending.
Proof.
  unfold commit, same_dependencies.
  now rewrite !Bool.eqb_reflx.
Qed.

Section Component.
Variable StringToNumber : string -> float.
Variable ObjectToNumber : json -> completion float.
Variable JSON_parse : string -> option json.

Abbreviation step := (step StringToNumber ObjectToNumber JSON_parse).
Abbreviation happen := (happen StringToNumber ObjectToNumber JSON_parse).
Abbreviation happenAll := (happenAll StringToNumber ObjectToNumber JSON_parse).



(** Once idle in live detection with no timeout pending, the component
    stays as it is until a setting is toggled. *)
Lemma stopped_stays_stopped happenings m :
  autoProcess (settings (current m)) = true ->
  outstanding (current m) = [] ->
  timeout m = false ->
  Forall (fun h => is_toggle h = false) happenings ->
  happenAll m happenings = m.
Proof.
  intros Hauto Hout Htimer Hall.
  induction Hall as [|h happenings Hh Hall IH]; [reflexivity|].
  assert (Hsame : happen m h = m).
  { destruct h as [page|page|remote now|key]; simpl.
    - now rewrite Htimer.
    - unfold captureButton. now rewrite Hauto.
    - rewrite Hout, commit_unchanged. destruct m; simpl in *; congruence.
    - discriminate. }
  unfold Rendering.happenAll in *. cbn [foldl]. rewrite Hsame. exact IH.
Qed.

(** C9: when the pending timeout of live detection fires and the capture
    throws, the handler lowers the flag and leaves [currentResult],
    [history] and the settings as they were, with no request issued; but
    the render that follows changes none of the effect's dependencies, so
    no timeout is armed, the capture button being hidden as well: from
    then on nothing but a settings toggle changes the component. *)
Theorem capture_failure_stops_live_loop m page video e :
  autoProcess (settings (current m)) = true ->
  isProcessing (app (current m)) = false ->
  outstanding (current m) = [] ->
  timeout m = true ->
  videoRef page = Some video ->
  videoWidth video <> 0 ->
  videoHeight video <> 0 ->
  capture page video = Throw e ->
  current (happen m (TimeoutFires page)) =
    mkSystem (mkState false (currentResult (app (current m)))
                      (history (app (current m))))
             (settings (current m)) [] /\
  timeout (happen m (TimeoutFires page)) = false /\
  captureButton (settings (current (happen m (TimeoutFires page))))
                (app (current (happen m (TimeoutFires page)))) = ButtonHidden /\
  (forall happenings,
      Forall (fun h => is_toggle h = false) happenings ->
      happenAll (happen m (TimeoutFires page)) happenings =
        happen m (TimeoutFires page)).
Proof.
  intros Hauto Hflag Hout Htimer Hvideo Hw Hh Hcap.
  assert (Hrun := processFrame_caught page video e Hvideo Hw Hh Hcap).
  assert (Hm : happen m (TimeoutFires page) =
            mkMounted
              (mkSystem (mkState false (currentResult (app (current m)))
                                 (history (app (current m))))
                        (settings (current m)) [])
              false).
  { simpl. rewrite Htimer, Hflag, Hrun, Hout. simpl.
    unfold commit, same_dependencies, dependencies. simpl.
    now rewrite Hflag, Bool.eqb_reflx. }
  rewrite Hm. simpl. split; [reflexivity|]. split; [reflexivity|]. split.
  - unfold captureButton. simpl. now rewrite Hauto.
  - intros happenings Hall. now apply stopped_stays_stopped.
Qed.


End Component.
End RenderingFacts.

(* ===================================================================== *)
(** ** Concrete runs of the loop across renders *)
(* ===================================================================== *)

Module RenderingExamples.
Import JS Types DOM HandDetector Loop GeminiService Component Rendering.
Import Samples Scenarios RenderingFacts.

Example live_detection_arms_timeout :
  liveMounted = mkMounted (mkSystem initialState (mkSettings true true true true) [])
                          true.
Proof. reflexivity. Qed.

(** With a working canvas the loop goes round: request, answer, next
    timeout. *)
Example live_loop_goes_on :
  timeout (playAll liveMounted [TimeoutFires (livePage 640 480);
                                Settles rejects 1000]) = true.
Proof. vm_compute. reflexivity. Qed.

Lemma capture_failure_stops_live_loop_witness :
  timeout (play liveMounted (TimeoutFires (noContextPage 640 480))) = false /\
  playAll (play liveMounted (TimeoutFires (noContextPage 640 480)))
          [TimeoutFires (livePage 640 480); Click (livePage 640 480);
           Settles rejects 1000] =
    play liveMounted (TimeoutFires (noContextPage 640 480)).
Proof.
  destruct (capture_failure_stops_live_loop stringToNumber objectToNumber parse
              liveMounted (noContextPage 640 480) (mkVideo 640 480)
              (Error "Could not get context")
              eq_refl eq_refl eq_refl eq_refl eq_refl
              ltac:(discriminate) ltac:(discriminate) eq_refl)
    as (_ & Htimer & _ & Hstuck).
  split; [exact Htimer|].
  apply Hstuck. repeat constructor.
Defined.


End RenderingExamples.
